(** * writing-prompt-bot: the per-user engagement logic of [main.py]

    A shallow embedding of the Telegram bot's handlers and jobs.

    - The [users] table of the SQLite database is a finite map from
      [user_id] (the INTEGER PRIMARY KEY) to the other four columns.
    - The handlers are [async] functions that read and write the table,
      read [prompts.json] and send messages, and any of these steps may
      raise.  They are embedded in a state-and-exception monad over a
      [World]; the world reached when an exception is raised is kept,
      because rows already written and messages already sent stay so.
    - [datetime.isoformat], [datetime.fromisoformat] and the offset of the
      zone [Europe/Moscow] are library code: they are parameters of the
      development.
    - SQL statements are taken to succeed; the steps that can raise are
      the sends, the reading of the catalog and the accesses to absent
      parts of an update. *)

From stdpp Require Import gmap strings list fin_maps sorting.
From Stdlib Require Import ZArith Lia Ascii.

Local Open Scope Z_scope.

(** ** Data *)

(** The columns of a [users] row other than its key.  [answered] and
    [reminder_sent] are INTEGER columns which the code compares with [1];
    [last_prompt_ts] is a nullable TEXT column. *)
Record Columns := mkColumns {
  prompt_index : Z;
  last_prompt_ts : option string;
  answered : Z;
  reminder_sent : Z
}.

(** A [sqlite3.Row] of [SELECT * FROM users]. *)
Record Row := mkRow {
  user_id : Z;
  columns : Columns
}.

(** [prompt_index INTEGER NOT NULL DEFAULT 0, last_prompt_ts TEXT DEFAULT NULL,
    answered INTEGER NOT NULL DEFAULT 0, reminder_sent INTEGER NOT NULL DEFAULT 0] *)
Definition default_columns : Columns :=
  {| prompt_index := 0; last_prompt_ts := None; answered := 0; reminder_sent := 0 |}.

(** The text [L(key, update, *args)]: the [ru_RU] entry for [key] formatted
    with [args] (or the fallback ["ru_RU:key"]).  The locale table is not
    interpreted: a text is identified by its key and arguments. *)
Inductive Text :=
| L (key : string) (args : list string).

Inductive ParseMode := MARKDOWN.

(** One call of [bot.send_message]. *)
Record Outbound := mkOutbound {
  chat_id : Z;
  text : Text;
  parse_mode : option ParseMode
}.

(** A parsed JSON document, as [json.load] returns it (numbers restricted
    to integers, which is enough to tell strings from other values). *)
#[local] Unset Elimination Schemes.
Inductive json :=
| JNull
| JBool (b : bool)
| JNumber (n : Z)
| JString (s : string)
| JArray (items : list json)
| JObject (members : list (string * json)).
#[local] Set Elimination Schemes.

(** The file at [PROMPTS_PATH] as [open] and [json.load] see it. *)
Inductive PromptsFile :=
| NoFile
| Unparsable
| Parsed (data : json).

Inductive Exn :=
| TelegramError
| FileNotFoundError
| JSONDecodeError
| ValueError (msg : string)
| RuntimeError (msg : string)
| ZeroDivisionError
| IndexError
| AttributeError
| TypeError.

(** The state the handlers act on: the [users] table, the messages
    delivered so far, the transport (whether a [send_message] call goes
    through; [false] makes it raise) and the prompts file. *)
Record World := mkWorld {
  db : gmap Z Columns;
  outbox : list Outbound;
  net : Outbound → bool;
  prompts_file : PromptsFile
}.

Definition with_db (f : gmap Z Columns → gmap Z Columns) (w : World) : World :=
  {| db := f (db w); outbox := outbox w; net := net w; prompts_file := prompts_file w |}.

Definition with_outbox (f : list Outbound → list Outbound) (w : World) : World :=
  {| db := db w; outbox := f (outbox w); net := net w; prompts_file := prompts_file w |}.

Definition with_prompts_file (p : PromptsFile) (w : World) : World :=
  {| db := db w; outbox := outbox w; net := net w; prompts_file := p |}.

Definition with_net (n : Outbound → bool) (w : World) : World :=
  {| db := db w; outbox := outbox w; net := n; prompts_file := prompts_file w |}.

(** An incoming [Update]: [message] is the chat of [update.message] when
    there is one, [effective_user] the id of [update.effective_user]. *)
Record Update := mkUpdate {
  message : option Z;
  effective_user : option Z
}.

(** What [datetime.fromisoformat] makes of a stored text: [None] when it
    raises, otherwise the wall-clock reading and the UTC offset written in
    the text, if any. *)
Record Parsed_datetime := mkParsed {
  wall : Z;
  tzinfo : option Z
}.

(** What [main] reads from the environment. *)
Record Env := mkEnv {
  dotenv_found : bool;
  TELEGRAM_BOT_TOKEN : option string;
  locales_readable : bool
}.

Inductive Handler := CommandStart | CommandStop | TextMessage.

(** The application [main] builds before it starts polling: the handlers
    and the scheduled jobs, by name. *)
Record Application := mkApplication {
  handlers : list Handler;
  jobs : list string
}.

(** ** The monad of handlers *)

Inductive Outcome (A : Type) :=
| Return (a : A)
| Raise (e : Exn).
Arguments Return {A} a.
Arguments Raise {A} e.

Definition M (A : Type) : Type := World → Outcome A * World.

Definition ret {A} (a : A) : M A := fun w => (Return a, w).

Definition raise {A} (e : Exn) : M A := fun w => (Raise e, w).

Definition bind {A B} (m : M A) (k : A → M B) : M B :=
  fun w =>
    match m w with
    | (Return a, w') => k a w'
    | (Raise e, w') => (Raise e, w')
    end.

Notation "'let*' x ':=' m 'in' k" := (bind m (fun x => k))
  (at level 10, x name, m at level 100, k at level 200, only parsing).

(** [for u in rows: body(u)] *)
Fixpoint for_each {A} (body : A → M unit) (rows : list A) : M unit :=
  match rows with
  | [] => ret tt
  | u :: rest => let* _ := body u in for_each body rest
  end.

Definition modify (f : World → World) : M unit := fun w => (Return tt, f w).

(** ** The store *)

(** [INSERT OR IGNORE INTO users (user_id) VALUES (?)] on the table. *)
Definition insert_or_ignore (user_id : Z) (t : gmap Z Columns) : gmap Z Columns :=
  match t !! user_id with
  | Some _ => t
  | None => <[user_id := default_columns]> t
  end.

Definition db_ensure_user (user_id : Z) : M unit :=
  modify (with_db (insert_or_ignore user_id)).

(** [SELECT * FROM users WHERE user_id = ?] followed by [fetchone()] *)
Definition db_get_user (user_id : Z) : M (option Row) :=
  fun w => (Return (mkRow user_id <$> db w !! user_id), w).

(** The row updates of the two flag-setting statements. *)
Definition mark_answered (c : Columns) : Columns :=
  {| prompt_index := prompt_index c; last_prompt_ts := last_prompt_ts c;
     answered := 1; reminder_sent := reminder_sent c |}.

Definition mark_reminder_sent (c : Columns) : Columns :=
  {| prompt_index := prompt_index c; last_prompt_ts := last_prompt_ts c;
     answered := answered c; reminder_sent := 1 |}.

(** [UPDATE users SET answered = 1 WHERE user_id = ?] *)
Definition db_mark_answered (user_id : Z) : M unit :=
  modify (with_db (alter mark_answered user_id)).

(** [UPDATE users SET reminder_sent = 1 WHERE user_id = ?] *)
Definition db_mark_reminder_sent (user_id : Z) : M unit :=
  modify (with_db (alter mark_reminder_sent user_id)).

(** [DELETE FROM users WHERE user_id = ?] *)
Definition db_delete_user (user_id : Z) : M unit :=
  modify (with_db (delete user_id)).

(** The rows of the table in the order of a table scan: SQLite walks the
    table by rowid, and the rowid of [users] is its INTEGER PRIMARY KEY. *)
Definition rowid_le (a b : Row) : Prop := user_id a ≤ user_id b.

#[global] Instance rowid_le_dec : RelDecision rowid_le.
Proof. intros a b. unfold rowid_le. apply _. Defined.

Definition table_rows (t : gmap Z Columns) : list Row :=
  merge_sort rowid_le
    ((fun kc => mkRow kc.1 kc.2) <$> map_to_list t).

(** [SELECT * FROM users] followed by [fetchall()]: a snapshot of the rows. *)
Definition db_all_users : M (list Row) :=
  fun w => (Return (table_rows (db w)), w).

(** ** The catalog *)

Definition is_str (x : json) : bool :=
  match x with JString _ => true | _ => false end.

Definition str_value (x : json) : string :=
  match x with JString s => s | _ => "" end.

Definition load_prompts : M (list string) :=
  fun w =>
    match prompts_file w with
    | NoFile => (Raise FileNotFoundError, w)
    | Unparsable => (Raise JSONDecodeError, w)
    | Parsed data =>
        match data with
        | JArray items =>
            if negb (forallb is_str items)
            then (Raise (ValueError "prompts.json must be a JSON array of strings"), w)
            else
              match items with
              | [] => (Raise (ValueError "prompts.json is empty"), w)
              | _ :: _ => (Return (str_value <$> items), w)
              end
        | _ => (Raise (ValueError "prompts.json must be a JSON array of strings"), w)
        end
    end.

(** ** Sending *)

(** [await context.bot.send_message(...)]: raises when the transport
    refuses the message, otherwise the message is delivered. *)
Definition send_message (m : Outbound) : M unit :=
  fun w =>
    if net w m
    then (Return tt, with_outbox (fun o => o ++ [m]) w)
    else (Raise TelegramError, w).

(** [await update.message.reply_text(text)] *)
Definition reply_text (update : Update) (t : Text) : M unit :=
  match message update with
  | None => raise AttributeError
  | Some chat => send_message {| chat_id := chat; text := t; parse_mode := None |}
  end.

Definition reply_message (chat : Z) (key : string) : Outbound :=
  {| chat_id := chat; text := L key []; parse_mode := None |}.

Definition prompt_message (user_id : Z) (prompt_text : string) : Outbound :=
  {| chat_id := user_id; text := L "message.sendprompt" [prompt_text];
     parse_mode := Some MARKDOWN |}.

Definition reminder_message (user_id : Z) : Outbound :=
  {| chat_id := user_id; text := L "message.reminder" []; parse_mode := None |}.

Definition send_prompt_to_user (user_id : Z) (prompt_text : string) : M unit :=
  send_message (prompt_message user_id prompt_text).

Definition send_reminder_to_user (user_id : Z) : M unit :=
  send_message (reminder_message user_id).

(** [prompts[i]] for an index the code computes as a non-negative integer. *)
Definition subscript (prompts : list string) (i : Z) : M string :=
  match prompts !! Z.to_nat i with
  | Some p => ret p
  | None => raise IndexError
  end.

(** ** Locales

    The global [locales] dictionary, [load_locales] that fills it from the
    files of the locale directory, and [L] that reads it.  The directory is
    a listing of names with what [json.load] makes of each file ([None]
    when it raises); entries are regular files.  [str.format] is library
    code: its outcome on a template and arguments is a parameter. *)
Module Locales.

(** [i.split(".", 1)[0]]: the name up to its first dot. *)
Fixpoint stem (i : string) : string :=
  match i with
  | EmptyString => EmptyString
  | String a rest => if Ascii.eqb a "."%char then EmptyString else String a (stem rest)
  end.

(** [for i in os.listdir(LOCALES): locales[stem] = json.load(f)], on the
    listing: files before one that fails to parse are stored. *)
Fixpoint store_files (files : list (string * option json)) (locales : gmap string json)
    : Outcome unit * gmap string json :=
  match files with
  | [] => (Return tt, locales)
  | (i, content) :: rest =>
      match content with
      | None => (Raise JSONDecodeError, locales)
      | Some data => store_files rest (<[stem i := data]> locales)
      end
  end.

(** [None] for a directory that cannot be listed. *)
Definition load_locales (listing : option (list (string * option json)))
    (locales : gmap string json) : Outcome unit * gmap string json :=
  match listing with
  | None => (Raise FileNotFoundError, locales)
  | Some files => store_files files locales
  end.

(** [d[key]] on the dictionary [json.load] builds from an object: of several
    members with one name the last one counts. *)
Fixpoint lookup_member (key : string) (members : list (string * json)) : option json :=
  match members with
  | [] => None
  | (k, v) :: rest =>
      match lookup_member key rest with
      | Some v' => Some v'
      | None => if bool_decide (k = key) then Some v else None
      end
  end.

(** What [template.format( *args )] does. *)
Inductive Formatted :=
| FormatReturn (s : string)
| FormatKeyError
| FormatRaise (e : Exn).

Section WithFormat.

Variable str_format : string → list string → Formatted.

Definition fallback (key : string) : string := "ru_RU:" +:+ key.

(** [L(key, update, *args)]; the [update] argument is not used. *)
Definition L (locales : gmap string json) (key : string) (args : list string)
    : Outcome string :=
  match locales !! "ru_RU"%string with
  | None => Return (fallback key)
  | Some (JObject members) =>
      match lookup_member key members with
      | None => Return (fallback key)
      | Some (JString template) =>
          match str_format template args with
          | FormatReturn s => Return s
          | FormatKeyError => Return (fallback key)
          | FormatRaise e => Raise e
          end
      | Some _ => Raise AttributeError
      end
  | Some _ => Raise TypeError
  end.

End WithFormat.

(** The content of the last file of a listing stored under a name. *)
Fixpoint last_with_stem (name : string) (files : list (string * option json)) : option json :=
  match files with
  | [] => None
  | (i, content) :: rest =>
      match last_with_stem name rest with
      | Some data => Some data
      | None => if bool_decide (stem i = name) then content else None
      end
  end.

(** A [format] that substitutes nothing, for the concrete runs. *)
Definition verbatim (template : string) (args : list string) : Formatted :=
  FormatReturn template.

End Locales.

(** ** Sample data for the concrete runs *)

(** A calendar for the runs below: three mornings, 09:00 Moscow time, as
    instants, as the texts [isoformat] writes for them and as
    [fromisoformat] reads those texts back (wall-clock reading and
    offset, in microseconds). *)
Definition us_per_hour : Z := 3600 * 1000000.

Definition march_1 : Z := 1740808800 * 1000000.
Definition march_2 : Z := march_1 + 24 * us_per_hour.
Definition march_3 : Z := march_1 + 48 * us_per_hour.

Definition calendar : list (Z * string) :=
  [ (march_1, "2025-03-01T09:00:00+03:00"%string);
    (march_2, "2025-03-02T09:00:00+03:00"%string);
    (march_3, "2025-03-03T09:00:00+03:00"%string) ].

Definition calendar_isoformat (t : Z) : string :=
  match list_find (fun e => e.1 = t) calendar with
  | Some (_, e) => e.2
  | None => ""
  end.

Definition calendar_fromisoformat (s : string) : option Parsed_datetime :=
  match list_find (fun e => e.2 = s) calendar with
  | Some (_, e) => Some {| wall := e.1 + 3 * us_per_hour; tzinfo := Some (3 * us_per_hour) |}
  | None => None
  end.

Definition moscow_offset (utc : Z) : Z := 3 * us_per_hour.

Definition three_prompts : PromptsFile :=
  Parsed (JArray [JString "P0"; JString "P1"; JString "P2"]).

Definition delivering (m : Outbound) : bool := true.

Definition private_message (uid : Z) : Update :=
  {| message := Some uid; effective_user := Some uid |}.

(** An empty table, a delivering transport, a catalog of three prompts. *)
Definition fresh_world : World :=
  {| db := ∅; outbox := []; net := delivering; prompts_file := three_prompts |}.

(** User 7 wrote to the bot before ever subscribing: [on_text] has ensured
    a row, and no prompt was ever sent. *)
Definition never_prompted_world : World :=
  {| db := {[ 7 := default_columns ]}; outbox := []; net := delivering;
     prompts_file := three_prompts |}.

Definition answered_row (idx : Z) : Columns :=
  {| prompt_index := idx; last_prompt_ts := Some "2025-03-01T09:00:00+03:00"%string;
     answered := 1; reminder_sent := 0 |}.

Definition unanswered_row (ts : string) : Columns :=
  {| prompt_index := 0; last_prompt_ts := Some ts; answered := 0; reminder_sent := 0 |}.

(** Users 1 and 2 have both answered prompt 0; user 1 has blocked the bot,
    so every message to chat 1 is refused. *)
Definition blocked_world : World :=
  {| db := {[ 1 := answered_row 0; 2 := answered_row 0 ]};
     outbox := [];
     net := fun m => negb (chat_id m =? 1);
     prompts_file := three_prompts |}.

(** User 5 has answered prompt 4 of a catalog that has since shrunk to
    three prompts. *)
Definition shrunk_world : World :=
  {| db := {[ 5 := answered_row 4 ]}; outbox := []; net := delivering;
     prompts_file := three_prompts |}.

(** Users 1 and 3 were sent a prompt on March 1 and have not answered;
    the timestamp of user 2 is not a date. *)
Definition corrupt_world : World :=
  {| db := {[ 1 := unanswered_row "2025-03-01T09:00:00+03:00";
              2 := unanswered_row "yesterday";
              3 := unanswered_row "2025-03-01T09:00:00+03:00" ]};
     outbox := []; net := delivering; prompts_file := three_prompts |}.

Definition good_env : Env :=
  {| dotenv_found := true; TELEGRAM_BOT_TOKEN := Some "123:abc"%string;
     locales_readable := true |}.

(** A pair of library functions defined on every instant: March 1 as in
    the calendar, every other instant written as the epoch. *)
Definition coarse_isoformat (t : Z) : string :=
  if bool_decide (t = march_1) then "2025-03-01T09:00:00+03:00"
  else "1970-01-01T03:00:00+03:00".

Definition coarse_fromisoformat (s : string) : option Parsed_datetime :=
  if bool_decide (s = "2025-03-01T09:00:00+03:00"%string)
  then Some {| wall := march_1 + 3 * us_per_hour; tzinfo := Some (3 * us_per_hour) |}
  else if bool_decide (s = "1970-01-01T03:00:00+03:00"%string)
  then Some {| wall := 3 * us_per_hour; tzinfo := Some (3 * us_per_hour) |}
  else None.

(** A locale directory with two files for [ru_RU] and one for [en_US]. *)
Definition locale_directory : list (string * option json) :=
  [ ("ru_RU.json"%string,
       Some (JObject [("reply.sub"%string, JString "old"); ("reply.unsub"%string, JString "bye")]));
    ("en_US.json"%string, Some (JObject [("reply.sub"%string, JString "Subscribed")]));
    ("ru_RU.v2.json"%string, Some (JObject [("reply.sub"%string, JString "new")])) ].

(** What a transport that delivers everything makes of [blocked_world]. *)
Definition unblocked_world : World := with_net delivering blocked_world.






(** User 7 has an unanswered prompt and the transport refuses every
    message. *)
Definition silent_world : World :=
  {| db := {[ 7 := unanswered_row "2025-03-01T09:00:00+03:00" ]};
     outbox := []; net := fun _ => false; prompts_file := three_prompts |}.

(** ** Handlers and jobs *)

Section Bot.

(** [datetime.isoformat] of the zone-aware datetime at an instant (instants
    are integers, in microseconds from the epoch; wall-clock readings are
    counted in microseconds from the same reading of the clock; durations
    are in microseconds). *)
Variable isoformat : Z → string.

(** [datetime.fromisoformat] on a stored text. *)
Variable fromisoformat : string → option Parsed_datetime.

(** The UTC offset of [Europe/Moscow] at an instant. *)
Variable TZ_MSK : Z → Z.

(** [UPDATE users SET prompt_index = ?, last_prompt_ts = ?, answered = 0,
    reminder_sent = 0 WHERE user_id = ?] with [sent_dt.isoformat()] *)
Definition db_mark_prompt_sent (user_id : Z) (prompt_index : Z) (sent_dt : Z) : M unit :=
  modify (with_db (alter (fun _ =>
    {| prompt_index := prompt_index; last_prompt_ts := Some (isoformat sent_dt);
       answered := 0; reminder_sent := 0 |}) user_id)).

Definition maybe_send_next_prompt (user_row : Row) (prompts : list string)
    (sent_time : Z) : M unit :=
  let user_id := user_id user_row in
  let answered := answered (columns user_row) in
  let idx := prompt_index (columns user_row) in
  if bool_decide (answered ≠ 1) then
    send_message {| chat_id := user_id; text := L "message.reminder" []; parse_mode := None |}
  else
    let len := Z.of_nat (length prompts) in
    if bool_decide (len = 0) then raise ZeroDivisionError else
    let next_idx := (idx + 1) `mod` len in
    let* p := subscript prompts next_idx in
    let* _ := send_prompt_to_user user_id p in
    db_mark_prompt_sent user_id next_idx sent_time.

(** [now] is the instant [now_msk()] returns in this run. *)
Definition daily_9_msk_job (now : Z) : M unit :=
  let* prompts := load_prompts in
  let sent_time := now in
  let* rows := db_all_users in
  for_each (fun u => maybe_send_next_prompt u prompts sent_time) rows.

Definition timedelta_hours (h : Z) : Z := h * 3600 * 1000000.

(** The readings of [datetime.min] and [datetime.max]: arithmetic that
    leaves this range raises [OverflowError]. *)
Definition datetime_min : Z := -62135596800 * 1000000.
Definition datetime_max : Z := 253402300799 * 1000000 + 999999.

Definition in_datetime_range (reading : Z) : bool :=
  bool_decide (datetime_min ≤ reading ≤ datetime_max).

(** The wall-clock reading in Moscow at an instant: what a datetime whose
    [tzinfo] is [TZ_MSK] shows.  This is the reading of [now_msk()]. *)
Definition msk_wall (utc : Z) : Z := utc + TZ_MSK utc.

(** [last_dt.astimezone(TZ_MSK)] on a datetime that carries the offset
    [off]: the reading is first taken to UTC, then to Moscow time; [None]
    when either step raises [OverflowError]. *)
Definition astimezone_msk (reading off : Z) : option Z :=
  let utc := reading - off in
  if in_datetime_range utc then
    if in_datetime_range (msk_wall utc) then Some (msk_wall utc) else None
  else None.

(** The [try] block of the reminder scan: the wall-clock reading of
    [last_dt], which carries [TZ_MSK] in either branch.  A text without an
    offset is read as Moscow time as it stands ([replace]); a text with an
    offset is converted ([astimezone]).  [None] when the block raises. *)
Definition parse_last_dt (last_prompt_ts : string) : option Z :=
  match fromisoformat last_prompt_ts with
  | None => None
  | Some d =>
      match tzinfo d with
      | None => Some (wall d)
      | Some off => astimezone_msk (wall d) off
      end
  end.

(** The body of the loop of [reminder_scan_job].  [now] and [last_dt]
    carry the same [tzinfo], so [now - last_dt] is the difference of their
    wall-clock readings, whatever the offsets at the two instants. *)
Definition reminder_scan_user (now : Z) (u : Row) : M unit :=
  let user_id := user_id u in
  let answered := answered (columns u) in
  let reminder_sent := reminder_sent (columns u) in
  match last_prompt_ts (columns u) with
  | None => ret tt
  | Some last_prompt_ts =>
      if bool_decide (answered = 1) then ret tt else
      if bool_decide (reminder_sent = 1) then ret tt else
      match parse_last_dt last_prompt_ts with
      | None => ret tt
      | Some last_dt =>
          if bool_decide (msk_wall now - last_dt >= timedelta_hours 24) then
            let* _ := send_reminder_to_user user_id in
            db_mark_reminder_sent user_id
          else ret tt
      end
  end.

Definition reminder_scan_job (now : Z) : M unit :=
  let* rows := db_all_users in
  for_each (reminder_scan_user now) rows.

(** [update.effective_user.id] *)
Definition effective_user_id (update : Update) : M Z :=
  match effective_user update with
  | Some uid => ret uid
  | None => raise AttributeError
  end.

Definition start (update : Update) (now : Z) : M unit :=
  let* user_id := effective_user_id update in
  let* _ := db_ensure_user user_id in
  let* prompts := load_prompts in
  let* u := db_get_user user_id in
  match u with
  | None => raise TypeError
  | Some u =>
      match last_prompt_ts (columns u) with
      | None =>
          let* _ := reply_text update (L "reply.sub" []) in
          let first_idx := 0 in
          let* p := subscript prompts first_idx in
          let* _ := send_prompt_to_user user_id p in
          db_mark_prompt_sent user_id first_idx now
      | Some _ => reply_text update (L "reply.err.alreadysub" [])
      end
  end.

Definition stop (update : Update) : M unit :=
  let* user_id := effective_user_id update in
  let* _ := db_delete_user user_id in
  reply_text update (L "reply.unsub" []).

Definition on_text (update : Update) : M unit :=
  match message update, effective_user update with
  | Some _, Some user_id =>
      let* _ := db_ensure_user user_id in
      let* u := db_get_user user_id in
      match u with
      | None => raise TypeError
      | Some u =>
          match last_prompt_ts (columns u) with
          | None => reply_text update (L "reply.err.noinitprompt" [])
          | Some _ =>
              if bool_decide (answered (columns u) = 1) then
                reply_text update (L "reply.complete.received" [])
              else
                let* _ := db_mark_answered user_id in
                reply_text update (L "reply.complete.received" [])
          end
      end
  | _, _ => ret tt
  end.

(** ** Start-up *)

Definition load_locales (env : Env) : M unit :=
  if locales_readable env then ret tt else raise FileNotFoundError.

(** [CREATE TABLE IF NOT EXISTS users (...)]: the rows are kept. *)
Definition db_init : M unit := ret tt.

Definition main (env : Env) : M Application :=
  if negb (dotenv_found env) then raise FileNotFoundError else
  match TELEGRAM_BOT_TOKEN env with
  | None | Some "" => raise (RuntimeError "TELEGRAM_BOT_TOKEN?")
  | Some _ =>
      let* _ := load_locales env in
      let* _ := db_init in
      ret {| handlers := [CommandStart; CommandStop; TextMessage];
             jobs := ["daily_9_msk"%string] |}
  end.

(** ** Scenarios and auxiliary notions *)

(** The round the cyclic-closure property speaks of: the user answers the
    current prompt, then the daily advance runs on the row read back. *)
Definition answer_and_advance (uid : Z) (prompts : list string) (sent_time : Z) : M unit :=
  let* _ := on_text {| message := Some uid; effective_user := Some uid |} in
  let* u := db_get_user uid in
  match u with
  | Some u => maybe_send_next_prompt u prompts sent_time
  | None => ret tt
  end.

(** [n] such rounds, the [i]-th one at the instant [clock i]. *)
Fixpoint rounds (n : nat) (uid : Z) (prompts : list string) (clock : nat → Z) : M unit :=
  match n with
  | O => ret tt
  | S k =>
      let* _ := rounds k uid prompts clock in
      answer_and_advance uid prompts (clock k)
  end.

(** The rows the reminder scan passes over at the instant [now]. *)
Definition no_reminder_due (now : Z) (c : Columns) : Prop :=
  match last_prompt_ts c with
  | None => True
  | Some s =>
      answered c = 1 ∨ reminder_sent c = 1 ∨
      match parse_last_dt s with
      | None => True
      | Some last_dt => msk_wall now - last_dt < timedelta_hours 24
      end
  end.

(** Messages of a world's outbox addressed to a chat. *)
Definition sent_to (uid : Z) (w : World) : list Outbound :=
  filter (fun m => chat_id m = uid) (outbox w).

(** *** Loop bodies as plans

    Both jobs run, for each row of the snapshot, a body of one shape: do
    nothing, or send one message and then rewrite the row of one user. *)
Definition Plan : Type := option (Outbound * Z * (Columns → Columns)).

Definition carry_out (p : Plan) : M unit :=
  match p with
  | None => ret tt
  | Some (m, uid, g) =>
      let* _ := send_message m in
      modify (with_db (alter g uid))
  end.

(** The world after a plan whose message was delivered. *)
Definition apply_plan (p : Plan) (w : World) : World :=
  match p with
  | None => w
  | Some (m, uid, g) => with_db (alter g uid) (with_outbox (fun o => o ++ [m]) w)
  end.

Definition carried_out (plans : list Plan) (w : World) : World :=
  foldl (fun w p => apply_plan p w) w plans.

Definition plan_table (t : gmap Z Columns) (p : Plan) : gmap Z Columns :=
  match p with
  | None => t
  | Some (_, uid, g) => alter g uid t
  end.

Definition plan_messages (p : Plan) : list Outbound :=
  match p with
  | None => []
  | Some (m, _, _) => [m]
  end.

(** The row the daily advance writes for a snapshot row [c]. *)
Definition advanced (prompts : list string) (now : Z) (c : Columns) : Columns :=
  {| prompt_index := (prompt_index c + 1) `mod` Z.of_nat (length prompts);
     last_prompt_ts := Some (isoformat now);
     answered := 0; reminder_sent := 0 |}.

(** What a daily run makes of a row, and what it sends for it. *)
Definition daily_row (prompts : list string) (now : Z) (c : Columns) : Columns :=
  if bool_decide (answered c = 1) then advanced prompts now c else c.

Definition daily_message (prompts : list string) (r : Row) : Outbound :=
  if bool_decide (answered (columns r) = 1) then
    prompt_message (user_id r)
      (default ""
         (prompts !! Z.to_nat ((prompt_index (columns r) + 1) `mod` Z.of_nat (length prompts))))
  else reminder_message (user_id r).

Definition daily_plan (prompts : list string) (now : Z) (r : Row) : Plan :=
  Some (daily_message prompts r, user_id r,
        if bool_decide (answered (columns r) = 1)
        then (fun _ => advanced prompts now (columns r))
        else (fun c => c)).

(** The test of the reminder scan on a row, as one boolean. *)
Definition reminder_due (now : Z) (c : Columns) : bool :=
  match last_prompt_ts c with
  | None => false
  | Some s =>
      if bool_decide (answered c = 1) then false else
      if bool_decide (reminder_sent c = 1) then false else
      match parse_last_dt s with
      | None => false
      | Some last_dt => bool_decide (msk_wall now - last_dt >= timedelta_hours 24)
      end
  end.

Definition scan_row (now : Z) (c : Columns) : Columns :=
  if reminder_due now c then mark_reminder_sent c else c.

Definition scan_plan (now : Z) (r : Row) : Plan :=
  if reminder_due now (columns r)
  then Some (reminder_message (user_id r), user_id r, mark_reminder_sent)
  else None.

(** *** Runs of the application

    What the running application reacts to: the three handlers [main]
    registers, the two jobs, and changes of its environment (the
    transport, the prompts file).  An exception raised by a handler or a
    job is caught by the framework: the application goes on from the
    world the exception left. *)
Inductive Event :=
| EStart (update : Update) (now : Z)
| EStop (update : Update)
| EText (update : Update)
| EDaily (now : Z)
| EScan (now : Z)
| EEnvironment (transport : Outbound → bool) (file : PromptsFile).

Definition handle (e : Event) (w : World) : World :=
  match e with
  | EStart update now => (start update now w).2
  | EStop update => (stop update w).2
  | EText update => (on_text update w).2
  | EDaily now => (daily_9_msk_job now w).2
  | EScan now => (reminder_scan_job now w).2
  | EEnvironment transport file => with_net transport (with_prompts_file file w)
  end.

Definition run_events (events : list Event) (w : World) : World :=
  foldl (fun w e => handle e w) w events.

(** The shape of the rows the code writes: flags are [0] or [1], the index
    is not negative, a row without a timestamp is the default row, and a
    timestamp is a text [isoformat] wrote. *)
Definition row_consistent (c : Columns) : Prop :=
  (answered c = 0 ∨ answered c = 1)
  ∧ (reminder_sent c = 0 ∨ reminder_sent c = 1)
  ∧ 0 ≤ prompt_index c
  ∧ (last_prompt_ts c = None → c = default_columns)
  ∧ (∀ s, last_prompt_ts c = Some s → ∃ t, s = isoformat t).

Definition table_consistent (t : gmap Z Columns) : Prop :=
  ∀ uid c, t !! uid = Some c → row_consistent c.

(** A handler run from [w] to [w'] for the user [uid] of an update is
    confined to that user when it leaves every other row alone, sends only
    to the chat of the update or to the user, and leaves the transport and
    the prompts file as they are. *)
Definition confined_to (upd : Update) (uid : Z) (w w' : World) : Prop :=
  (∀ k, k ≠ uid → db w' !! k = db w !! k)
  ∧ (∃ new, outbox w' = outbox w ++ new
       ∧ Forall (fun m => message upd = Some (chat_id m) ∨ chat_id m = uid) new)
  ∧ net w' = net w
  ∧ prompts_file w' = prompts_file w.

(** The row [start] writes with the first prompt. *)
Definition first_prompt_row (now : Z) : Columns :=
  {| prompt_index := 0; last_prompt_ts := Some (isoformat now);
     answered := 0; reminder_sent := 0 |}.

(** ** Basic facts *)

Ltac run :=
  unfold answer_and_advance, start, stop, on_text, daily_9_msk_job, reminder_scan_job,
    reminder_scan_user, maybe_send_next_prompt, effective_user_id, reply_text,
    send_prompt_to_user, send_reminder_to_user, send_message, subscript,
    db_mark_prompt_sent, db_mark_answered, db_mark_reminder_sent, db_delete_user,
    db_ensure_user, db_get_user, db_all_users, modify, bind, ret, raise in *;
  simpl in *.

Lemma load_prompts_world (w : World) : (load_prompts w).2 = w.
Proof.
  unfold load_prompts. destruct (prompts_file w) as [| |[]]; try done.
  destruct (negb _); [done|]. by destruct items.
Qed.

Lemma load_prompts_eq (w : World) : load_prompts w = ((load_prompts w).1, w).
Proof. rewrite <- (load_prompts_world w) at 3. by destruct (load_prompts w). Qed.

Lemma str_value_inv (items : list json) :
  forallb is_str items = true → JString <$> (str_value <$> items) = items.
Proof.
  induction items as [|y l IH]; simpl; [done|].
  destruct y; simpl; try done. intros H.
  f_equal. by apply IH.
Qed.

Lemma load_prompts_Return (w : World) (ps : list string) :
  (load_prompts w).1 = Return ps →
  ps ≠ [] ∧ prompts_file w = Parsed (JArray (JString <$> ps)).
Proof.
  unfold load_prompts. destruct (prompts_file w) as [| |[]]; try done.
  destruct (forallb is_str items) eqn:Hall; simpl; [|done].
  destruct items as [|x items]; [done|]. simpl. intros [= <-]. split; [done|].
  do 2 f_equal. symmetry. by apply (str_value_inv (x :: items)).
Qed.

(** The reading of the file does not depend on the rest of the world. *)
Lemma load_prompts_file (w w' : World) :
  prompts_file w' = prompts_file w → (load_prompts w').1 = (load_prompts w).1.
Proof.
  unfold load_prompts. intros ->. destruct (prompts_file w) as [| |[]]; try done.
  destruct (negb _); [done|]. by destruct items.
Qed.

Lemma for_each_app {A} (body : A → M unit) (l1 l2 : list A) (w : World) :
  for_each body (l1 ++ l2) w =
    match for_each body l1 w with
    | (Return _, w1) => for_each body l2 w1
    | (Raise e, w1) => (Raise e, w1)
    end.
Proof.
  revert w. induction l1 as [|a l1 IH]; intros w; simpl; [done|].
  unfold bind. destruct (body a w) as [[[]|e] w1]; [apply IH|done].
Qed.

Lemma elem_of_table_rows (t : gmap Z Columns) (r : Row) :
  r ∈ table_rows t ↔ t !! user_id r = Some (columns r).
Proof.
  unfold table_rows. rewrite merge_sort_Permutation, list_elem_of_fmap. split.
  - intros [[k c] [-> Hin]]. by apply elem_of_map_to_list in Hin.
  - intros H. exists (user_id r, columns r). split; [by destruct r|].
    by apply elem_of_map_to_list.
Qed.

Lemma load_prompts_with_db (f : gmap Z Columns → gmap Z Columns) (w : World) :
  load_prompts (with_db f w) = ((load_prompts w).1, with_db f w).
Proof.
  rewrite (load_prompts_eq (with_db f w)). f_equal. by apply load_prompts_file.
Qed.

Lemma insert_or_ignore_lookup (uid : Z) (t : gmap Z Columns) :
  insert_or_ignore uid t !! uid = Some (default (default_columns) (t !! uid)).
Proof.
  unfold insert_or_ignore. destruct (t !! uid) eqn:E; simpl; [done|].
  apply lookup_insert_eq.
Qed.

Lemma insert_or_ignore_present (uid : Z) (t : gmap Z Columns) :
  is_Some (t !! uid) → insert_or_ignore uid t = t.
Proof. intros [c Hc]. unfold insert_or_ignore. by rewrite Hc. Qed.

(** The subscribe command on a user who was never sent a prompt, step by
    step: the row is ensured, the subscription is confirmed to the chat,
    [prompts[0]] is sent to the user, and only then the row is updated. *)
Lemma start_never_prompted (w : World) (chat uid now : Z) (p0 : string)
    (rest : list string) :
  (db w !! uid) ≫= last_prompt_ts = None →
  (load_prompts w).1 = Return (p0 :: rest) →
  let w1 := with_db (insert_or_ignore uid) w in
  let reply := {| chat_id := chat; text := L "reply.sub" []; parse_mode := None |} in
  start {| message := Some chat; effective_user := Some uid |} now w =
    if net w reply then
      if net w (prompt_message uid p0) then
        (Return tt,
         with_db (alter (fun _ =>
           {| prompt_index := 0; last_prompt_ts := Some (isoformat now);
              answered := 0; reminder_sent := 0 |}) uid)
           (with_outbox (fun o => (o ++ [reply]) ++ [prompt_message uid p0]) w1))
      else (Raise TelegramError, with_outbox (fun o => o ++ [reply]) w1)
    else (Raise TelegramError, w1).
Proof.
  intros Hts Hload w1 reply. unfold start, effective_user_id, db_ensure_user.
  unfold bind at 1. simpl. unfold bind at 1. unfold modify at 1.
  unfold bind at 1. rewrite load_prompts_with_db, Hload.
  fold w1. unfold bind at 1. unfold db_get_user at 1. simpl.
  rewrite insert_or_ignore_lookup. simpl.
  assert (last_prompt_ts (default default_columns (db w !! uid)) = None) as ->.
  { destruct (db w !! uid); simpl in *; done. }
  run. fold reply. destruct (net w reply); simpl; [|done].
  by destruct (net w (prompt_message uid p0)).
Qed.

Lemma alter_insert_or_ignore (uid : Z) (c : Columns) (t : gmap Z Columns) :
  alter (fun _ => c) uid (insert_or_ignore uid t) = <[uid := c]> t.
Proof.
  apply map_eq. intros k. destruct (decide (k = uid)) as [->|Hne].
  - by rewrite lookup_alter_eq, insert_or_ignore_lookup, lookup_insert_eq.
  - rewrite lookup_alter_ne, lookup_insert_ne by done.
    unfold insert_or_ignore. destruct (t !! uid); [done|].
    by rewrite lookup_insert_ne.
Qed.

Lemma alter_present (uid : Z) (f : Columns → Columns) (c : Columns)
    (t : gmap Z Columns) :
  t !! uid = Some c → alter f uid t = <[uid := f c]> t.
Proof.
  intros Hc. apply map_eq. intros k. destruct (decide (k = uid)) as [->|Hne].
  - by rewrite lookup_alter_eq, Hc, lookup_insert_eq.
  - by rewrite lookup_alter_ne, lookup_insert_ne.
Qed.

(** The index the daily advance computes is a position of the catalog. *)
Lemma next_index_in_range (idx : Z) (prompts : list string) :
  prompts ≠ [] →
  ∃ p, prompts !! Z.to_nat ((idx + 1) `mod` Z.of_nat (length prompts)) = Some p.
Proof.
  intros Hne. apply lookup_lt_is_Some.
  assert (0 < Z.of_nat (length prompts)) as Hlen by (destruct prompts; [done|simpl; lia]).
  pose proof (Z.mod_pos_bound (idx + 1) _ Hlen). lia.
Qed.

(** The daily advance on a row whose [answered] is [1]. *)
Lemma advance_answered (w : World) (uid : Z) (c : Columns) (prompts : list string)
    (sent_time : Z) (p : string) :
  answered c = 1 →
  prompts !! Z.to_nat ((prompt_index c + 1) `mod` Z.of_nat (length prompts)) = Some p →
  maybe_send_next_prompt (mkRow uid c) prompts sent_time w =
    if net w (prompt_message uid p) then
      (Return tt,
       with_db (alter (fun _ =>
         {| prompt_index := (prompt_index c + 1) `mod` Z.of_nat (length prompts);
            last_prompt_ts := Some (isoformat sent_time);
            answered := 0; reminder_sent := 0 |}) uid)
         (with_outbox (fun o => o ++ [prompt_message uid p]) w))
    else (Raise TelegramError, w).
Proof.
  intros Hans Hp. unfold maybe_send_next_prompt. simpl. rewrite Hans.
  rewrite bool_decide_eq_false_2 by (intros H; by apply H).
  rewrite bool_decide_eq_false_2 by (destruct prompts; [done|simpl; lia]).
  run. rewrite Hp. by destruct (net w (prompt_message uid p)).
Qed.

(** The daily advance on a row whose [answered] is not [1]. *)
Lemma advance_unanswered (w : World) (uid : Z) (c : Columns) (prompts : list string)
    (sent_time : Z) :
  answered c ≠ 1 →
  maybe_send_next_prompt (mkRow uid c) prompts sent_time w =
    if net w (reminder_message uid) then
      (Return tt, with_outbox (fun o => o ++ [reminder_message uid]) w)
    else (Raise TelegramError, w).
Proof.
  intros Hans. unfold maybe_send_next_prompt. simpl.
  by rewrite bool_decide_eq_true_2.
Qed.

(** Whatever makes the daily advance raise, it raises before it has sent
    or written anything; with a loaded catalog only the transport can. *)
Lemma advance_raise (w w' : World) (u : Row) (prompts : list string) (sent_time : Z)
    (e : Exn) :
  maybe_send_next_prompt u prompts sent_time w = (Raise e, w') →
  w' = w ∧ (prompts ≠ [] → e = TelegramError).
Proof.
  destruct u as [uid c]. destruct (decide (answered c = 1)) as [Hans|Hans].
  - destruct prompts as [|q prompts].
    + unfold maybe_send_next_prompt. simpl. rewrite Hans.
      rewrite bool_decide_eq_false_2 by (intros H; by apply H). simpl.
      unfold raise. by intros [= <- <-].
    + destruct (next_index_in_range (prompt_index c) (q :: prompts)) as [p Hp]; [done|].
      rewrite (advance_answered w uid c _ sent_time p Hans Hp).
      destruct (net w _); [done|]. by intros [= <- <-].
  - rewrite (advance_unanswered w uid c _ sent_time Hans).
    destruct (net w _); [done|]. by intros [= <- <-].
Qed.

(** The text handler on a message of a user, step by step. *)
Lemma on_text_run (w : World) (chat uid : Z) :
  on_text {| message := Some chat; effective_user := Some uid |} w =
    let w1 := with_db (insert_or_ignore uid) w in
    let c := default default_columns (db w !! uid) in
    match last_prompt_ts c with
    | None => send_message (reply_message chat "reply.err.noinitprompt") w1
    | Some _ =>
        if bool_decide (answered c = 1)
        then send_message (reply_message chat "reply.complete.received") w1
        else send_message (reply_message chat "reply.complete.received")
               (with_db (alter mark_answered uid) w1)
    end.
Proof.
  unfold on_text. simpl. unfold bind at 1. unfold db_ensure_user, modify at 1.
  unfold bind at 1. unfold db_get_user at 1. simpl.
  rewrite insert_or_ignore_lookup. simpl.
  destruct (last_prompt_ts _); [|done].
  by destruct (bool_decide _).
Qed.

Lemma with_db_insert_or_ignore_present (w : World) (uid : Z) :
  is_Some (db w !! uid) → with_db (insert_or_ignore uid) w = w.
Proof.
  intros H. unfold with_db. rewrite insert_or_ignore_present by done. by destruct w.
Qed.

(** One round of answering and advancing, when the transport delivers. *)
Lemma answer_and_advance_spec (w : World) (uid : Z) (c : Columns)
    (prompts : list string) (sent_time : Z) :
  db w !! uid = Some c →
  answered c = 1 ∨ is_Some (last_prompt_ts c) →
  prompts ≠ [] →
  (∀ m, net w m = true) →
  ∃ w', answer_and_advance uid prompts sent_time w = (Return tt, w')
    ∧ db w' !! uid =
        Some {| prompt_index := (prompt_index c + 1) `mod` Z.of_nat (length prompts);
                last_prompt_ts := Some (isoformat sent_time);
                answered := 0; reminder_sent := 0 |}
    ∧ net w' = net w.
Proof.
  intros Hc Hst Hne Hnet.
  destruct (next_index_in_range (prompt_index c) prompts Hne) as [p Hp].
  unfold answer_and_advance. unfold bind at 1. rewrite on_text_run. simpl.
  rewrite with_db_insert_or_ignore_present by eauto. rewrite Hc. simpl.
  destruct (last_prompt_ts c) as [s|] eqn:Hts.
  - destruct (decide (answered c = 1)) as [Hans|Hans].
    + rewrite bool_decide_eq_true_2 by done.
      unfold send_message. rewrite Hnet.
      unfold bind, db_get_user. simpl. rewrite Hc. simpl.
      rewrite (advance_answered _ uid c _ sent_time p Hans Hp). simpl.
      rewrite Hnet. eexists. split; [done|]. simpl.
      by rewrite lookup_alter_eq, Hc.
    + rewrite bool_decide_eq_false_2 by done.
      unfold send_message. simpl. rewrite Hnet.
      unfold bind, db_get_user. simpl. rewrite lookup_alter_eq, Hc. simpl.
      erewrite (advance_answered _ uid _ _ sent_time p); [|done|by simpl].
      simpl. rewrite Hnet. eexists. split; [done|]. simpl.
      by rewrite !lookup_alter_eq, Hc.
  - destruct Hst as [Hans|[? ?]]; [|done].
    unfold send_message. rewrite Hnet.
    unfold bind, db_get_user. simpl. rewrite Hc. simpl.
    rewrite (advance_answered _ uid c _ sent_time p Hans Hp). simpl.
    rewrite Hnet. eexists. split; [done|]. simpl.
    by rewrite lookup_alter_eq, Hc.
Qed.

Lemma rounds_spec (n : nat) (w : World) (uid : Z) (c : Columns)
    (prompts : list string) (clock : nat → Z) :
  db w !! uid = Some c →
  answered c = 1 ∨ is_Some (last_prompt_ts c) →
  prompts ≠ [] →
  (∀ m, net w m = true) →
  ∃ w', rounds (S n) uid prompts clock w = (Return tt, w')
    ∧ db w' !! uid =
        Some {| prompt_index :=
                  (prompt_index c + Z.of_nat (S n)) `mod` Z.of_nat (length prompts);
                last_prompt_ts := Some (isoformat (clock n));
                answered := 0; reminder_sent := 0 |}
    ∧ net w' = net w.
Proof.
  intros Hc Hst Hne Hnet. induction n as [|n IH].
  - simpl. unfold bind, ret. by apply answer_and_advance_spec.
  - destruct IH as (w1 & Hrun & Hc1 & Hnet1).
    change (rounds (S (S n)) uid prompts clock w) with
      (bind (rounds (S n) uid prompts clock)
         (fun _ => answer_and_advance uid prompts (clock (S n))) w).
    unfold bind. rewrite Hrun.
    destruct (answer_and_advance_spec w1 uid _ prompts (clock (S n)) Hc1)
      as (w2 & Hrun2 & Hc2 & Hnet2); [right; simpl; eauto|done| |].
    { intros m. by rewrite Hnet1. }
    exists w2. split; [done|]. split; [|congruence].
    rewrite Hc2. simpl. do 2 f_equal.
    rewrite Zplus_mod_idemp_l. f_equal. lia.
Qed.

Lemma reminder_scan_user_skip (w : World) (now : Z) (u : Row) :
  no_reminder_due now (columns u) → reminder_scan_user now u w = (Return tt, w).
Proof.
  unfold no_reminder_due, reminder_scan_user.
  destruct (last_prompt_ts (columns u)) as [s|]; [|done].
  intros [H|[H|H]].
  - by rewrite bool_decide_eq_true_2.
  - destruct (bool_decide (answered _ = 1)); [done|].
    by rewrite bool_decide_eq_true_2.
  - destruct (bool_decide (answered _ = 1)); [done|].
    destruct (bool_decide (reminder_sent _ = 1)); [done|].
    destruct (parse_last_dt s); [|done].
    by rewrite bool_decide_eq_false_2 by lia.
Qed.

Lemma reminder_scan_user_due (w : World) (now : Z) (u : Row) (s : string) (d : Z) :
  last_prompt_ts (columns u) = Some s →
  parse_last_dt s = Some d →
  answered (columns u) ≠ 1 →
  reminder_sent (columns u) ≠ 1 →
  timedelta_hours 24 ≤ msk_wall now - d →
  reminder_scan_user now u w =
    if net w (reminder_message (user_id u)) then
      (Return tt,
       with_db (alter mark_reminder_sent (user_id u))
         (with_outbox (fun o => o ++ [reminder_message (user_id u)]) w))
    else (Raise TelegramError, w).
Proof.
  intros Hts Hparse Hans Hrem Hdue. unfold reminder_scan_user.
  rewrite Hts, Hparse. rewrite !bool_decide_eq_false_2 by done.
  rewrite bool_decide_eq_true_2 by lia.
  run. by destruct (net w _).
Qed.




Lemma send_message_db (m : Outbound) (w : World) : db (send_message m w).2 = db w.
Proof. unfold send_message. by destruct (net w m). Qed.

(** The table after the text handler, whether or not its reply goes
    through. *)
Lemma on_text_db (w : World) (chat uid : Z) :
  db (on_text {| message := Some chat; effective_user := Some uid |} w).2 =
    match db w !! uid with
    | None => <[uid := default_columns]> (db w)
    | Some c =>
        match last_prompt_ts c with
        | None => db w
        | Some _ => if bool_decide (answered c = 1) then db w
                    else <[uid := mark_answered c]> (db w)
        end
    end.
Proof.
  rewrite on_text_run. simpl.
  destruct (db w !! uid) as [c|] eqn:Hc; simpl.
  - destruct (last_prompt_ts c); [destruct (bool_decide _)|];
      rewrite send_message_db; simpl;
      rewrite insert_or_ignore_present by eauto; [done| |done].
    by apply alter_present.
  - rewrite send_message_db. simpl. unfold insert_or_ignore. by rewrite Hc.
Qed.

(** The reply of the text handler and its outcome. *)
Lemma on_text_outcome (w : World) (chat uid : Z) :
  let reply :=
    reply_message chat
      match (db w !! uid) ≫= last_prompt_ts with
      | None => "reply.err.noinitprompt"
      | Some _ => "reply.complete.received"
      end in
  let r := on_text {| message := Some chat; effective_user := Some uid |} w in
  if net w reply
  then r.1 = Return tt ∧ outbox r.2 = outbox w ++ [reply]
  else r.1 = Raise TelegramError ∧ outbox r.2 = outbox w.
Proof.
  simpl. rewrite on_text_run. simpl. unfold send_message.
  destruct (db w !! uid) as [c|]; simpl.
  - destruct (last_prompt_ts c); simpl.
    + destruct (bool_decide _); simpl; by destruct (net w _).
    + by destruct (net w _).
  - by destruct (net w _).
Qed.

Lemma stop_run (w : World) (chat uid : Z) :
  stop {| message := Some chat; effective_user := Some uid |} w =
    let w1 := with_db (delete uid) w in
    if net w (reply_message chat "reply.unsub")
    then (Return tt, with_outbox (fun o => o ++ [reply_message chat "reply.unsub"]) w1)
    else (Raise TelegramError, w1).
Proof. run. by destruct (net w _). Qed.

(** The subscribe command on a user who has already been sent a prompt. *)
Lemma start_already_subscribed (w : World) (upd : Update) (uid now : Z) (c : Columns)
    (s : string) :
  effective_user upd = Some uid →
  db w !! uid = Some c →
  last_prompt_ts c = Some s →
  start upd now w =
    match (load_prompts w).1 with
    | Raise e => (Raise e, w)
    | Return _ => reply_text upd (L "reply.err.alreadysub" []) w
    end.
Proof.
  intros Hu Hc Hts. unfold start, effective_user_id. rewrite Hu.
  unfold bind at 1. simpl. unfold bind at 1. unfold db_ensure_user, modify at 1.
  rewrite with_db_insert_or_ignore_present by eauto.
  unfold bind at 1. rewrite (load_prompts_eq w).
  destruct (load_prompts w).1; [|done].
  unfold bind, db_get_user. rewrite Hc. simpl. by rewrite Hts.
Qed.

(** ** The claims *)

(** C1 (as amended).  At subscribe time, for every user whose
    [last_prompt_ts] is absent (in particular a user with no row yet),
    [start] confirms the subscription, sends [prompts[0]] and records the
    prompt as sent with index [0] at the current instant.  The daily cycle
    has no such case: what it does with a row does not depend on
    [last_prompt_ts]. *)
Theorem start_sends_first_prompt (w : World) (chat uid now : Z) (p0 : string)
    (rest : list string) :
  (db w !! uid) ≫= last_prompt_ts = None →
  (load_prompts w).1 = Return (p0 :: rest) →
  let reply := {| chat_id := chat; text := L "reply.sub" []; parse_mode := None |} in
  net w reply = true →
  net w (prompt_message uid p0) = true →
  start {| message := Some chat; effective_user := Some uid |} now w =
    (Return tt,
     {| db := <[uid := {| prompt_index := 0; last_prompt_ts := Some (isoformat now);
                          answered := 0; reminder_sent := 0 |}]> (db w);
        outbox := outbox w ++ [reply; prompt_message uid p0];
        net := net w;
        prompts_file := prompts_file w |})
  ∧ ∀ (c : Columns) (ts : option string) (prompts : list string) (t : Z) (w' : World),
      maybe_send_next_prompt (mkRow uid c) prompts t w' =
      maybe_send_next_prompt
        (mkRow uid {| prompt_index := prompt_index c; last_prompt_ts := ts;
                      answered := answered c; reminder_sent := reminder_sent c |})
        prompts t w'.
Proof.
  intros Hts Hload reply Hreply Hprompt. split.
  - rewrite (start_never_prompted w chat uid now p0 rest Hts Hload). simpl.
    fold reply. rewrite Hreply, Hprompt. f_equal.
    unfold with_db, with_outbox. simpl. f_equal.
    + apply alter_insert_or_ignore.
    + by rewrite <- app_assoc.
  - intros c ts prompts t w'. reflexivity.
Qed.

(** C2 (as amended).  The daily cycle processes the rows in the order of
    the snapshot and has no handler around a row: when processing a row
    raises, the rows before it have been processed, the exception leaves
    the job, and neither that row nor any row after it is processed in
    this run.  With a loaded catalog the only exception is the
    transport's, raised before anything is sent or written for the row. *)
Theorem daily_job_stops_at_failure (w w1 w2 : World) (now : Z) (prompts : list string)
    (l1 l2 : list Row) (u : Row) (e : Exn) :
  (load_prompts w).1 = Return prompts →
  table_rows (db w) = l1 ++ u :: l2 →
  for_each (fun r => maybe_send_next_prompt r prompts now) l1 w = (Return tt, w1) →
  maybe_send_next_prompt u prompts now w1 = (Raise e, w2) →
  daily_9_msk_job now w = (Raise TelegramError, w1) ∧ e = TelegramError ∧ w2 = w1.
Proof.
  intros Hload Hrows Hl1 Hu.
  destruct (advance_raise _ _ _ _ _ _ Hu) as [-> He].
  rewrite He in * by (by apply load_prompts_Return in Hload as [? _]).
  split; [|done]. unfold daily_9_msk_job, bind.
  rewrite load_prompts_eq, Hload. unfold db_all_users. rewrite Hrows.
  rewrite for_each_app, Hl1. simpl. unfold bind. by rewrite Hu.
Qed.

(** C3 (as amended).  For a stored row with [answered = 1] and a non-empty
    catalog of length [N], when the transport delivers, the daily advance
    sends the prompt at index [(prompt_index + 1) mod N] and leaves the row
    with that index, the send time, [answered = 0] and [reminder_sent = 0].
    [N] rounds of answering and advancing bring [prompt_index] to
    [prompt_index mod N]: back to its original value exactly when that
    value was a position of the catalog. *)
Theorem advance_cycles_through_catalog (w : World) (uid : Z) (c : Columns)
    (prompts : list string) :
  db w !! uid = Some c →
  answered c = 1 →
  prompts ≠ [] →
  let N := Z.of_nat (length prompts) in
  let next := (prompt_index c + 1) `mod` N in
  (∀ sent_time : Z, ∃ p,
      prompts !! Z.to_nat next = Some p ∧
      (net w (prompt_message uid p) = true →
       maybe_send_next_prompt (mkRow uid c) prompts sent_time w =
         (Return tt,
          {| db := <[uid := {| prompt_index := next;
                               last_prompt_ts := Some (isoformat sent_time);
                               answered := 0; reminder_sent := 0 |}]> (db w);
             outbox := outbox w ++ [prompt_message uid p];
             net := net w;
             prompts_file := prompts_file w |})))
  ∧ (∀ clock : nat → Z, (∀ m, net w m = true) → ∃ w',
      rounds (length prompts) uid prompts clock w = (Return tt, w') ∧
      prompt_index <$> db w' !! uid = Some (prompt_index c `mod` N) ∧
      (0 ≤ prompt_index c < N → prompt_index <$> db w' !! uid = Some (prompt_index c))).
Proof.
  intros Hc Hans Hne N next. split.
  - intros sent_time.
    destruct (next_index_in_range (prompt_index c) prompts Hne) as [p Hp].
    exists p. split; [done|]. intros Hnet.
    rewrite (advance_answered w uid c _ sent_time p Hans Hp), Hnet.
    f_equal. unfold with_db, with_outbox. simpl. f_equal.
    by rewrite (alter_present uid _ c (db w) Hc).
  - intros clock Hnet. destruct prompts as [|q prompts]; [done|].
    destruct (rounds_spec (length prompts) w uid c (q :: prompts) clock Hc)
      as (w' & Hrun & Hc' & _); [by left|done|done|].
    exists w'. split; [done|].
    assert (prompt_index <$> db w' !! uid = Some (prompt_index c `mod` N)) as Hidx.
    { rewrite Hc'. cbn [fmap option_fmap option_map prompt_index]. f_equal.
      unfold N. change (length (q :: prompts)) with (S (length prompts)).
      generalize (Z.of_nat (S (length prompts))). intros n.
      rewrite <- (Z.mul_1_l n) at 1. apply Z_mod_plus_full. }
    split; [done|]. intros Hrange. rewrite Hidx. f_equal. by apply Z.mod_small.
Qed.

(** C4.  A prompt is recorded as sent only after its send has succeeded.
    Let the transport refuse the prompt [p] for the user.  When the daily
    advance, on an answered row, has to send [p], it raises and leaves the
    world as it was.  When [start], for a user never sent a prompt, has to
    send [p] as the first prompt, it raises and the table is the one
    [db_ensure_user] left: the row read is not updated (and the table is
    the initial one when the user already had a row). *)
Theorem failed_send_commits_nothing (w : World) (chat uid now : Z) (p : string) :
  net w (prompt_message uid p) = false →
  (∀ (c : Columns) (prompts : list string),
      answered c = 1 →
      prompts !! Z.to_nat ((prompt_index c + 1) `mod` Z.of_nat (length prompts)) = Some p →
      maybe_send_next_prompt (mkRow uid c) prompts now w = (Raise TelegramError, w))
  ∧ (∀ rest : list string,
      (db w !! uid) ≫= last_prompt_ts = None →
      (load_prompts w).1 = Return (p :: rest) →
      ∃ w', start {| message := Some chat; effective_user := Some uid |} now w =
              (Raise TelegramError, w')
        ∧ db w' = insert_or_ignore uid (db w)
        ∧ db w' !! uid = Some (default default_columns (db w !! uid))
        ∧ (is_Some (db w !! uid) → db w' = db w)).
Proof.
  intros Hfail. split.
  - intros c prompts Hans Hp.
    by rewrite (advance_answered w uid c _ now p Hans Hp), Hfail.
  - intros rest Hts Hload.
    rewrite (start_never_prompted w chat uid now p rest Hts Hload). simpl.
    rewrite Hfail.
    case_match.
    + eexists. split; [reflexivity|]. simpl.
      split; [done|]. split; [apply insert_or_ignore_lookup|].
      apply insert_or_ignore_present.
    + eexists. split; [reflexivity|]. simpl.
      split; [done|]. split; [apply insert_or_ignore_lookup|].
      apply insert_or_ignore_present.
Qed.


(** C8 (as amended).  On a text message of a user, the handler writes
    nothing to a row whose [last_prompt_ts] is absent or whose [answered]
    is already [1] (a user with no row gets the default row, and nothing
    more), and otherwise sets [answered = 1] and nothing else.  Handling a
    second message leaves the table as the first left it, with
    [answered = 1] both times when a prompt had been sent.  The table is
    written before the reply is sent.  The reply is the no-prompt text
    when no prompt was ever sent and the acknowledgement otherwise: when
    its send goes through the handler returns and that one reply has been
    sent to the chat; when the send is refused the handler raises and no
    reply has been sent.  An update without a message or without a user
    is passed over: no reply, no change. *)
Theorem acknowledge_is_idempotent (w : World) (chat uid : Z) :
  let upd := {| message := Some chat; effective_user := Some uid |} in
  let w1 := (on_text upd w).2 in
  let w2 := (on_text upd w1).2 in
  let reply :=
    reply_message chat
      match (db w !! uid) ≫= last_prompt_ts with
      | None => "reply.err.noinitprompt"
      | Some _ => "reply.complete.received"
      end in
  (∀ c, db w !! uid = Some c → last_prompt_ts c = None ∨ answered c = 1 →
        db w1 = db w)
  ∧ (db w !! uid = None → db w1 = <[uid := default_columns]> (db w))
  ∧ (∀ c s, db w !! uid = Some c → last_prompt_ts c = Some s → answered c ≠ 1 →
        db w1 = <[uid := mark_answered c]> (db w))
  ∧ db w2 = db w1
  ∧ (∀ c s, db w !! uid = Some c → last_prompt_ts c = Some s →
        answered <$> db w1 !! uid = Some 1 ∧ answered <$> db w2 !! uid = Some 1)
  ∧ (net w reply = true →
        (on_text upd w).1 = Return tt ∧ outbox w1 = outbox w ++ [reply])
  ∧ (net w reply = false →
        (on_text upd w).1 = Raise TelegramError ∧ outbox w1 = outbox w)
  ∧ (∀ upd', message upd' = None ∨ effective_user upd' = None →
        on_text upd' w = (Return tt, w)).
Proof.
  intros upd w1 w2 reply.
  assert (∀ c s, db w !! uid = Some c → last_prompt_ts c = Some s →
            ∃ c1, db w1 !! uid = Some c1 ∧ answered c1 = 1 ∧ last_prompt_ts c1 = Some s)
    as Hfirst.
  { intros c s Hc Hts. unfold w1, upd. rewrite on_text_db, Hc, Hts.
    destruct (decide (answered c = 1)) as [Hans|Hans].
    - rewrite bool_decide_eq_true_2 by done. by exists c.
    - rewrite bool_decide_eq_false_2 by done. rewrite lookup_insert_eq.
      by eexists. }
  assert (db w2 = db w1) as Hsecond.
  { unfold w2, upd. rewrite on_text_db.
    destruct (db w !! uid) as [c|] eqn:Hc.
    - destruct (last_prompt_ts c) as [s|] eqn:Hts.
      + destruct (Hfirst c s eq_refl Hts) as (c1 & -> & Hans & ->).
        by rewrite bool_decide_eq_true_2.
      + unfold w1, upd. rewrite on_text_db, Hc, Hts. by rewrite Hc, Hts.
    - unfold w1, upd. rewrite on_text_db, Hc. by rewrite lookup_insert_eq. }
  pose proof (on_text_outcome w chat uid) as Hreply. simpl in Hreply.
  fold reply upd w1 in Hreply.
  split; [|split; [|split; [|split; [|split; [|split; [|split]]]]]].
  - intros c Hc Hcase. unfold w1, upd. rewrite on_text_db, Hc.
    destruct (last_prompt_ts c); [|done].
    destruct Hcase as [?|Hans]; [done|]. by rewrite bool_decide_eq_true_2.
  - intros Hc. unfold w1, upd. by rewrite on_text_db, Hc.
  - intros c s Hc Hts Hans. unfold w1, upd. rewrite on_text_db, Hc, Hts.
    by rewrite bool_decide_eq_false_2.
  - done.
  - intros c s Hc Hts. rewrite Hsecond.
    destruct (Hfirst c s Hc Hts) as (c1 & Hc1 & Hans1 & _).
    rewrite Hc1. simpl. by rewrite Hans1.
  - intros Hnet. by rewrite Hnet in Hreply.
  - intros Hnet. by rewrite Hnet in Hreply.
  - intros upd' Hpart. unfold on_text.
    destruct Hpart as [->| ->]; [done|]. by destruct (message upd').
Qed.

(** C9.  [stop] deletes the user's row whatever it holds, and deleting
    again changes nothing; its outcome does not depend on the row being
    there.  Afterwards the user is in the position of one never seen:
    the row a later handler ensures is the default one
    ([prompt_index = 0], no timestamp, [answered = 0], [reminder_sent = 0]),
    [start] takes the first-prompt path and a text message is answered
    with the no-prompt reply. *)
Theorem unsubscribe_forgets_user (w : World) (chat uid : Z) :
  let upd := {| message := Some chat; effective_user := Some uid |} in
  let w1 := (stop upd w).2 in
  db w1 = delete uid (db w)
  ∧ db w1 !! uid = None
  ∧ db (stop upd w1).2 = db w1
  ∧ (stop upd w).1 = (stop upd (with_db (delete uid) w)).1
  ∧ (db_get_user uid (db_ensure_user uid w1).2).1 = Return (Some (mkRow uid default_columns))
  ∧ (∀ (now : Z) (p0 : string) (rest : list string),
        (load_prompts w).1 = Return (p0 :: rest) →
        net w (reply_message chat "reply.sub") = true →
        net w (prompt_message uid p0) = true →
        start upd now w1 =
          (Return tt,
           {| db := <[uid := {| prompt_index := 0;
                                last_prompt_ts := Some (isoformat now);
                                answered := 0; reminder_sent := 0 |}]> (db w1);
              outbox := outbox w1 ++ [reply_message chat "reply.sub";
                                      prompt_message uid p0];
              net := net w;
              prompts_file := prompts_file w |}))
  ∧ db (on_text upd w1).2 = <[uid := default_columns]> (db w1)
  ∧ ((on_text upd w1).1 = Return tt →
        outbox (on_text upd w1).2 =
          outbox w1 ++ [reply_message chat "reply.err.noinitprompt"]).
Proof.
  intros upd w1.
  assert (db w1 = delete uid (db w)) as Hdb.
  { unfold w1, upd. rewrite stop_run. simpl. by destruct (net w _). }
  assert (net w1 = net w ∧ prompts_file w1 = prompts_file w) as [Hnet Hfile].
  { unfold w1, upd. rewrite stop_run. simpl. by destruct (net w _). }
  assert (db w1 !! uid = None) as Hnone by (rewrite Hdb; apply lookup_delete_eq).
  split; [done|]. split; [done|]. split.
  { unfold upd at 1. rewrite stop_run. simpl.
    destruct (net w1 _); simpl; by rewrite Hdb, delete_delete_eq. }
  split.
  { unfold upd. rewrite !stop_run. simpl. by destruct (net w _). }
  split.
  { run. unfold insert_or_ignore. rewrite Hnone. by rewrite lookup_insert_eq. }
  split.
  { intros now p0 rest Hload Hreply Hprompt. unfold upd.
    rewrite (start_never_prompted w1 chat uid now p0 rest).
    - simpl. rewrite Hnet. unfold reply_message in Hreply. rewrite Hreply, Hprompt.
      f_equal. unfold with_db, with_outbox. simpl. rewrite Hnet, Hfile. f_equal.
      + apply alter_insert_or_ignore.
      + by rewrite <- app_assoc.
    - by rewrite Hnone.
    - by rewrite (load_prompts_file w w1). }
  split.
  { unfold upd. by rewrite on_text_db, Hnone. }
  unfold upd. rewrite on_text_run. simpl. rewrite Hnone. simpl.
  unfold send_message. simpl. by destruct (net w1 _).
Qed.

(** C10.  For a user whose row has a [last_prompt_ts], [start] leaves
    the table as it is, whatever else happens; the only message it can
    send is the already-subscribed reply to the chat; and it does send
    it, and returns, when the catalog loads and the transport delivers. *)
Theorem start_again_changes_nothing (w : World) (upd : Update) (uid now : Z)
    (c : Columns) (s : string) :
  effective_user upd = Some uid →
  db w !! uid = Some c →
  last_prompt_ts c = Some s →
  let r := start upd now w in
  db r.2 = db w
  ∧ (outbox r.2 = outbox w ∨
     ∃ chat, message upd = Some chat ∧
             outbox r.2 = outbox w ++ [reply_message chat "reply.err.alreadysub"])
  ∧ (∀ (chat : Z) (prompts : list string),
        message upd = Some chat →
        (load_prompts w).1 = Return prompts →
        net w (reply_message chat "reply.err.alreadysub") = true →
        r = (Return tt,
             with_outbox (fun o => o ++ [reply_message chat "reply.err.alreadysub"]) w)).
Proof.
  intros Hu Hc Hts r. unfold r.
  rewrite (start_already_subscribed w upd uid now c s Hu Hc Hts).
  unfold reply_text, send_message, raise.
  split; [|split].
  - destruct (load_prompts w).1; [|done].
    destruct (message upd); [|done]. by destruct (net w _).
  - destruct (load_prompts w).1; [|by left].
    destruct (message upd) as [chat|]; [|by left].
    fold (reply_message chat "reply.err.alreadysub").
    destruct (net w _); [|by left]. right. by exists chat.
  - intros chat prompts -> -> Hnet.
    fold (reply_message chat "reply.err.alreadysub"). by rewrite Hnet.
Qed.

(** C6 (as amended).  [main] does not read the catalog: its outcome is
    the same whatever the prompts file holds.  The catalog is read by
    [load_prompts] in every run of the daily job and of [start], so a run
    uses the file as it is at that moment.  A load that returns gives a
    non-empty list of strings, the content of the file; a missing,
    unparsable, ill-typed or empty file makes the load raise, and then
    the daily job processes no row and [start] sends nothing and writes
    nothing beyond ensuring the user's row. *)
Theorem catalog_is_read_at_each_use (w : World) :
  (∀ (env : Env) (p : PromptsFile),
      (main env (with_prompts_file p w)).1 = (main env w).1)
  ∧ (∀ prompts : list string,
      (load_prompts w).1 = Return prompts →
      prompts ≠ [] ∧ prompts_file w = Parsed (JArray (JString <$> prompts)) ∧
      ∀ now : Z,
        daily_9_msk_job now w =
          for_each (fun u => maybe_send_next_prompt u prompts now) (table_rows (db w)) w)
  ∧ (prompts_file w = NoFile ∨ prompts_file w = Unparsable ∨
     prompts_file w = Parsed (JArray []) ∨
     (∃ items, prompts_file w = Parsed (JArray items) ∧ forallb is_str items = false) →
     ∃ e, (load_prompts w).1 = Raise e)
  ∧ (∀ e : Exn,
      (load_prompts w).1 = Raise e →
      (∀ now : Z, daily_9_msk_job now w = (Raise e, w)) ∧
      (∀ (upd : Update) (uid now : Z),
          effective_user upd = Some uid →
          start upd now w = (Raise e, with_db (insert_or_ignore uid) w))).
Proof.
  split; [|split; [|split]].
  - intros env p. unfold main.
    destruct (negb _); [done|]. destruct (TELEGRAM_BOT_TOKEN env) as [[|]|]; try done.
    unfold load_locales. by destruct (locales_readable env).
  - intros prompts Hload.
    destruct (load_prompts_Return w prompts Hload) as [Hne Hfile].
    split; [done|]. split; [done|]. intros now.
    unfold daily_9_msk_job, bind. by rewrite load_prompts_eq, Hload.
  - unfold load_prompts.
    intros [->|[->|[->|(items & -> & ->)]]]; simpl; eauto.
  - intros e Hload. split.
    + intros now. unfold daily_9_msk_job, bind. by rewrite load_prompts_eq, Hload.
    + intros upd uid now Hu. unfold start, effective_user_id. rewrite Hu.
      unfold bind at 1. simpl. unfold bind at 1. unfold db_ensure_user, modify at 1.
      unfold bind at 1. by rewrite load_prompts_with_db, Hload.
Qed.

(** ** Further properties: the store *)

Lemma with_db_fix (f : gmap Z Columns → gmap Z Columns) (w : World) :
  f (db w) = db w → with_db f w = w.
Proof. intros H. unfold with_db. rewrite H. by destruct w. Qed.

Lemma alter_absent (uid : Z) (f : Columns → Columns) (t : gmap Z Columns) :
  t !! uid = None → alter f uid t = t.
Proof.
  intros H. apply map_eq. intros k. destruct (decide (k = uid)) as [->|Hne].
  - by rewrite lookup_alter_eq, H.
  - by rewrite lookup_alter_ne.
Qed.

Lemma alter_twice (uid : Z) (f g : Columns → Columns) (t : gmap Z Columns) :
  alter f uid (alter g uid t) = alter (fun c => f (g c)) uid t.
Proof.
  apply map_eq. intros k. destruct (decide (k = uid)) as [->|Hne].
  - rewrite !lookup_alter_eq. by destruct (t !! uid).
  - by rewrite !lookup_alter_ne.
Qed.

(** ** Further properties: plans and loops *)

Lemma carry_out_run (p : Plan) (w : World) :
  carry_out p w =
    match p with
    | None => (Return tt, w)
    | Some (m, uid, g) =>
        if net w m then (Return tt, apply_plan p w) else (Raise TelegramError, w)
    end.
Proof.
  destruct p as [[[m uid] g]|]; [|done].
  unfold carry_out, bind, send_message, modify. by destruct (net w m).
Qed.

Lemma apply_plan_net (p : Plan) (w : World) : net (apply_plan p w) = net w.
Proof. by destruct p as [[[m uid] g]|]. Qed.

Lemma carried_out_net (plans : list Plan) (w : World) :
  net (carried_out plans w) = net w.
Proof.
  unfold carried_out. revert w. induction plans as [|p plans IH]; intros w; [done|].
  simpl. by rewrite IH, apply_plan_net.
Qed.

Lemma carried_out_prompts_file (plans : list Plan) (w : World) :
  prompts_file (carried_out plans w) = prompts_file w.
Proof.
  unfold carried_out. revert w. induction plans as [|p plans IH]; intros w; [done|].
  simpl. rewrite IH. by destruct p as [[[m uid] g]|].
Qed.

Lemma carried_out_db (plans : list Plan) (w : World) :
  db (carried_out plans w) = foldl plan_table (db w) plans.
Proof.
  unfold carried_out. revert w. induction plans as [|p plans IH]; intros w; [done|].
  simpl. rewrite IH. by destruct p as [[[m uid] g]|].
Qed.

Lemma carried_out_outbox (plans : list Plan) (w : World) :
  outbox (carried_out plans w) = outbox w ++ (plans ≫= plan_messages).
Proof.
  unfold carried_out. revert w. induction plans as [|p plans IH]; intros w.
  - simpl. by rewrite app_nil_r.
  - simpl. rewrite IH.
    destruct p as [[[m uid] g]|]; simpl; [|done]. by rewrite <- app_assoc.
Qed.

(** A loop of plans under a transport that delivers everything. *)
Lemma loop_delivering {A} (plan : A → Plan) (rows : list A) (w : World) :
  (∀ m, net w m = true) →
  for_each (fun r => carry_out (plan r)) rows w =
    (Return tt, carried_out (plan <$> rows) w).
Proof.
  revert w. induction rows as [|r rows IH]; intros w Hnet; [done|].
  simpl. unfold bind. rewrite carry_out_run.
  destruct (plan r) as [[[m uid] g]|] eqn:Hp.
  - rewrite Hnet. apply IH. intros m'. by rewrite apply_plan_net.
  - by apply IH.
Qed.

(** A loop of plans in general: a prefix of the batch is carried out, and
    the loop either reaches the end or stops at a refused message. *)
Lemma loop_prefix {A} (plan : A → Plan) (rows : list A) (w : World) :
  ∃ done rest,
    rows = done ++ rest
    ∧ (for_each (fun r => carry_out (plan r)) rows w).2 = carried_out (plan <$> done) w
    ∧ ((for_each (fun r => carry_out (plan r)) rows w).1 = Return tt ∧ rest = []
       ∨ (for_each (fun r => carry_out (plan r)) rows w).1 = Raise TelegramError
         ∧ ∃ r rest' m uid g,
             rest = r :: rest' ∧ plan r = Some (m, uid, g) ∧ net w m = false).
Proof.
  revert w. induction rows as [|r rows IH]; intros w.
  - exists [], []. split; [done|]. split; [done|]. by left.
  - simpl. unfold bind. rewrite carry_out_run.
    destruct (plan r) as [[[m uid] g]|] eqn:Hp.
    + destruct (net w m) eqn:Hm.
      * destruct (IH (apply_plan (Some (m, uid, g)) w))
          as (done & rest & -> & Hw & Hout).
        exists (r :: done), rest. split; [done|]. split.
        { rewrite Hw. simpl. by rewrite Hp. }
        destruct Hout as [?|(Hr & r' & rest' & m' & uid' & g' & -> & Hp' & Hm')];
          [by left|right].
        split; [done|]. exists r', rest', m', uid', g'. by rewrite apply_plan_net in Hm'.
      * exists [], (r :: rows). split; [done|]. split; [done|]. right.
        split; [done|]. by exists r, rows, m, uid, g.
    + destruct (IH w) as (done & rest & -> & Hw & Hout).
      exists (r :: done), rest. split; [done|]. split.
      { rewrite Hw. simpl. by rewrite Hp. }
      done.
Qed.

(** The table after a sequence of plans, at one user.  All the plans for
    that user are assumed to send its stored row [c] to the same row [c'],
    and to leave [c'] alone. *)
Lemma plans_absent (plans : list Plan) (t : gmap Z Columns) (uid : Z) :
  t !! uid = None → foldl plan_table t plans !! uid = None.
Proof.
  revert t. induction plans as [|p plans IH]; intros t Ht; [done|].
  simpl. apply IH. destruct p as [[[m u] g]|]; simpl; [|done].
  destruct (decide (u = uid)) as [->|Hne].
  - by rewrite lookup_alter_eq, Ht.
  - by rewrite lookup_alter_ne.
Qed.

Lemma plans_settled (plans : list Plan) (t : gmap Z Columns) (uid : Z) (c' : Columns) :
  (∀ m g, Some (m, uid, g) ∈ plans → g c' = c') →
  t !! uid = Some c' → foldl plan_table t plans !! uid = Some c'.
Proof.
  revert t. induction plans as [|p plans IH]; intros t Hg Ht; [done|].
  simpl. apply IH.
  - intros m g Hin. apply (Hg m g). by right.
  - destruct p as [[[m u] g]|]; simpl; [|done].
    destruct (decide (u = uid)) as [->|Hne].
    + rewrite lookup_alter_eq, Ht. simpl. f_equal. apply (Hg m g). by left.
    + by rewrite lookup_alter_ne.
Qed.

Lemma plans_lookup (plans : list Plan) (t : gmap Z Columns) (uid : Z) (c c' : Columns) :
  (∀ m g, Some (m, uid, g) ∈ plans → g c = c' ∧ g c' = c') →
  t !! uid = Some c →
  (foldl plan_table t plans !! uid = Some c
   ∧ ¬ ∃ m g, Some (m, uid, g) ∈ plans)
  ∨ (foldl plan_table t plans !! uid = Some c'
     ∧ ∃ m g, Some (m, uid, g) ∈ plans).
Proof.
  revert t. induction plans as [|p plans IH]; intros t Hg Ht.
  - left. split; [done|]. intros (m & g & Hin). by apply elem_of_nil in Hin.
  - assert (∀ m g, Some (m, uid, g) ∈ plans → g c = c' ∧ g c' = c') as Hg'.
    { intros m g Hin. apply (Hg m g). by right. }
    simpl. destruct p as [[[m u] g]|]; simpl.
    + destruct (decide (u = uid)) as [->|Hne].
      * right. split; [|exists m, g; by left].
        apply plans_settled.
        { intros m' g' Hin. by apply (Hg' m' g'). }
        rewrite lookup_alter_eq, Ht. simpl. f_equal. apply (Hg m g). by left.
      * destruct (IH (alter g u t) Hg') as [[Hl Hno]|[Hl Hyes]].
        { by rewrite lookup_alter_ne. }
        { left. split; [done|]. intros (m' & g' & Hin).
          apply elem_of_cons in Hin as [[= -> -> ->]|Hin]; [done|].
          apply Hno. by exists m', g'. }
        { right. split; [done|]. destruct Hyes as (m' & g' & Hin).
          exists m', g'. by right. }
    + destruct (IH t Hg' Ht) as [[Hl Hno]|[Hl Hyes]].
      * left. split; [done|]. intros (m' & g' & Hin).
        apply elem_of_cons in Hin as [?|Hin]; [done|].
        apply Hno. by exists m', g'.
      * right. split; [done|]. destruct Hyes as (m' & g' & Hin).
        exists m', g'. by right.
Qed.

(** ** Further properties: the snapshot and the two loop bodies *)

Lemma table_rows_perm (t : gmap Z Columns) :
  table_rows t ≡ₚ (fun kc => mkRow kc.1 kc.2) <$> map_to_list t.
Proof. unfold table_rows. apply merge_sort_Permutation. Qed.

Lemma table_rows_NoDup (t : gmap Z Columns) : NoDup (user_id <$> table_rows t).
Proof.
  rewrite table_rows_perm, <- list_fmap_compose.
  apply (NoDup_fst_map_to_list t).
Qed.

Lemma table_rows_member (t : gmap Z Columns) (uid : Z) (c : Columns) :
  t !! uid = Some c → mkRow uid c ∈ table_rows t.
Proof. intros H. by apply elem_of_table_rows. Qed.

Lemma for_each_ext {A} (f g : A → M unit) (rows : list A) (w : World) :
  (∀ r w', f r w' = g r w') → for_each f rows w = for_each g rows w.
Proof.
  intros Hfg. revert w. induction rows as [|r rows IH]; intros w; [done|].
  simpl. unfold bind. rewrite Hfg. by destruct (g r w) as [[[]|e] w1].
Qed.

Lemma daily_body_plan (prompts : list string) (now : Z) (r : Row) (w : World) :
  prompts ≠ [] →
  maybe_send_next_prompt r prompts now w = carry_out (daily_plan prompts now r) w.
Proof.
  intros Hne. destruct r as [uid c]. rewrite carry_out_run.
  unfold daily_plan, daily_message. simpl.
  destruct (decide (answered c = 1)) as [Hans|Hans].
  - destruct (next_index_in_range (prompt_index c) prompts Hne) as [p Hp].
    rewrite (advance_answered w uid c prompts now p Hans Hp).
    rewrite !bool_decide_eq_true_2 by done. by rewrite Hp.
  - rewrite (advance_unanswered w uid c prompts now Hans).
    rewrite !bool_decide_eq_false_2 by done.
    destruct (net w _); [|done]. f_equal. simpl. symmetry. apply with_db_fix.
    apply map_eq. intros k. destruct (decide (k = uid)) as [->|Hk].
    + rewrite lookup_alter_eq. by destruct (_ !! uid).
    + by rewrite lookup_alter_ne.
Qed.

Lemma reminder_due_spec (now : Z) (c : Columns) :
  reminder_due now c = false ↔ no_reminder_due now c.
Proof.
  unfold reminder_due, no_reminder_due.
  destruct (last_prompt_ts c) as [s|]; [|done].
  destruct (decide (answered c = 1)) as [Ha|Ha].
  { rewrite bool_decide_eq_true_2 by done. split; [intros _; by left|done]. }
  rewrite bool_decide_eq_false_2 by done.
  destruct (decide (reminder_sent c = 1)) as [Hr|Hr].
  { rewrite bool_decide_eq_true_2 by done. split; [intros _; right; by left|done]. }
  rewrite bool_decide_eq_false_2 by done.
  destruct (parse_last_dt s) as [d|]; [|split; [intros _; right; by right|done]].
  rewrite bool_decide_eq_false. split; [intros; right; right; lia|].
  intros [?|[?|?]]; [done|done|lia].
Qed.

Lemma scan_body_plan (now : Z) (r : Row) (w : World) :
  reminder_scan_user now r w = carry_out (scan_plan now r) w.
Proof.
  rewrite carry_out_run. unfold scan_plan.
  destruct (reminder_due now (columns r)) eqn:Hdue.
  - unfold reminder_due in Hdue. unfold reminder_scan_user.
    destruct (last_prompt_ts (columns r)) as [s|]; [|done].
    destruct (bool_decide (answered _ = 1)); [done|].
    destruct (bool_decide (reminder_sent _ = 1)); [done|].
    destruct (parse_last_dt s); [|done]. rewrite Hdue.
    unfold send_reminder_to_user, send_message, db_mark_reminder_sent, modify, bind.
    simpl. by destruct (net w _).
  - apply reminder_scan_user_skip. by apply reminder_due_spec.
Qed.

Lemma daily_job_loop (w : World) (now : Z) (prompts : list string) :
  (load_prompts w).1 = Return prompts →
  daily_9_msk_job now w =
    for_each (fun r => carry_out (daily_plan prompts now r)) (table_rows (db w)) w.
Proof.
  intros Hload. unfold daily_9_msk_job, bind. rewrite load_prompts_eq, Hload.
  unfold db_all_users. apply for_each_ext. intros r w'. apply daily_body_plan.
  by apply load_prompts_Return in Hload as [? _].
Qed.

Lemma reminder_scan_job_loop (w : World) (now : Z) :
  reminder_scan_job now w =
    for_each (fun r => carry_out (scan_plan now r)) (table_rows (db w)) w.
Proof.
  unfold reminder_scan_job, bind, db_all_users. apply for_each_ext.
  intros r w'. apply scan_body_plan.
Qed.

(** The table after the daily plans of some rows of the snapshot. *)
Lemma daily_plans_lookup (prompts : list string) (now : Z) (rows : list Row)
    (t : gmap Z Columns) (uid : Z) (c : Columns) :
  (∀ r, r ∈ rows → t !! user_id r = Some (columns r)) →
  t !! uid = Some c →
  let T := foldl plan_table t (daily_plan prompts now <$> rows) in
  (T !! uid = Some c ∧ uid ∉ user_id <$> rows)
  ∨ (T !! uid = Some (daily_row prompts now c) ∧ uid ∈ user_id <$> rows).
Proof.
  intros Hrows Hc T.
  destruct (plans_lookup (daily_plan prompts now <$> rows) t uid c
              (daily_row prompts now c)) as [[Hl Hno]|[Hl Hyes]]; [|done| |].
  - intros m g Hin. apply list_elem_of_fmap in Hin as (r & Hr & Hin).
    unfold daily_plan in Hr. injection Hr as -> Hu ->.
    pose proof (Hrows r Hin) as Hcr. rewrite <- Hu, Hc in Hcr.
    injection Hcr as <-. unfold daily_row.
    destruct (bool_decide (answered c = 1)) eqn:Ha; [|done].
    split; [done|]. unfold advanced. simpl. done.
  - left. split; [done|]. intros Hin. apply list_elem_of_fmap in Hin as (r & Hu & Hin).
    apply Hno. eexists _, _. apply list_elem_of_fmap. exists r.
    split; [|done]. unfold daily_plan. by rewrite <- Hu.
  - right. split; [done|]. destruct Hyes as (m & g & Hin).
    apply list_elem_of_fmap in Hin as (r & Hr & Hin).
    unfold daily_plan in Hr. injection Hr as _ Hu _.
    apply list_elem_of_fmap. by exists r.
Qed.

(** The table after the scan plans of some rows of the snapshot. *)
Lemma scan_plans_lookup (now : Z) (rows : list Row) (t : gmap Z Columns)
    (uid : Z) (c : Columns) :
  (∀ r, r ∈ rows → t !! user_id r = Some (columns r)) →
  t !! uid = Some c →
  let T := foldl plan_table t (scan_plan now <$> rows) in
  (T !! uid = Some c ∧ (uid ∈ user_id <$> rows → reminder_due now c = false))
  ∨ (T !! uid = Some (mark_reminder_sent c) ∧ uid ∈ user_id <$> rows
     ∧ reminder_due now c = true).
Proof.
  intros Hrows Hc T.
  assert (∀ r, r ∈ rows → user_id r = uid → columns r = c) as Hsame.
  { intros r Hin Hu. pose proof (Hrows r Hin) as Hcr. rewrite Hu, Hc in Hcr.
    by injection Hcr. }
  destruct (plans_lookup (scan_plan now <$> rows) t uid c (mark_reminder_sent c))
    as [[Hl Hno]|[Hl Hyes]]; [|done| |].
  - intros m g Hin. apply list_elem_of_fmap in Hin as (r & Hr & Hin).
    unfold scan_plan in Hr. destruct (reminder_due now (columns r)); [|done].
    by injection Hr as -> _ ->.
  - left. split; [done|]. intros Hin.
    apply list_elem_of_fmap in Hin as (r & Hu & Hin).
    destruct (reminder_due now c) eqn:Hdue; [|done]. exfalso. apply Hno.
    eexists _, _. apply list_elem_of_fmap. exists r. split; [|done].
    unfold scan_plan. rewrite (Hsame r Hin (eq_sym Hu)), Hdue. by rewrite <- Hu.
  - right. split; [done|]. destruct Hyes as (m & g & Hin).
    apply list_elem_of_fmap in Hin as (r & Hr & Hin).
    unfold scan_plan in Hr. destruct (reminder_due now (columns r)) eqn:Hdue; [|done].
    injection Hr as _ Hu _. rewrite (Hsame r Hin (eq_sym Hu)) in Hdue.
    split; [|done]. apply list_elem_of_fmap. by exists r.
Qed.

(** ** Further properties: the jobs *)

Lemma world_eq (w1 w2 : World) :
  db w1 = db w2 → outbox w1 = outbox w2 → net w1 = net w2 →
  prompts_file w1 = prompts_file w2 → w1 = w2.
Proof. destruct w1, w2. simpl. by intros -> -> -> ->. Qed.

Lemma daily_plan_messages (prompts : list string) (now : Z) (rows : list Row) :
  (daily_plan prompts now <$> rows) ≫= plan_messages = daily_message prompts <$> rows.
Proof.
  induction rows as [|r rows IH]; [done|].
  rewrite !fmap_cons. simpl. f_equal. apply IH.
Qed.

Lemma scan_plan_messages (now : Z) (rows : list Row) :
  (scan_plan now <$> rows) ≫= plan_messages =
    reminder_message <$>
      (user_id <$> filter (fun r => reminder_due now (columns r) = true) rows).
Proof.
  induction rows as [|r rows IH]; [done|].
  rewrite fmap_cons, filter_cons. simpl. unfold scan_plan at 1.
  destruct (reminder_due now (columns r)) eqn:Hdue; simpl.
  - f_equal. apply IH.
  - apply IH.
Qed.

Lemma loop_idle {A} (plan : A → Plan) (rows : list A) (w : World) :
  (∀ r, r ∈ rows → plan r = None) →
  for_each (fun r => carry_out (plan r)) rows w = (Return tt, w).
Proof.
  induction rows as [|r rows IH]; intros Hidle; [done|].
  simpl. unfold bind. rewrite (Hidle r) by left. simpl.
  apply IH. intros r' Hin. apply Hidle. by right.
Qed.

(** The table and the outbox after a daily run whose messages were all
    delivered. *)
Lemma daily_delivering_run (w : World) (now : Z) (prompts : list string) :
  (load_prompts w).1 = Return prompts →
  (∀ m, net w m = true) →
  daily_9_msk_job now w =
    (Return tt, carried_out (daily_plan prompts now <$> table_rows (db w)) w).
Proof.
  intros Hload Hnet. rewrite (daily_job_loop w now prompts Hload).
  by apply loop_delivering.
Qed.

Lemma daily_delivering_db (w : World) (now : Z) (prompts : list string) (uid : Z) :
  db (carried_out (daily_plan prompts now <$> table_rows (db w)) w) !! uid =
    daily_row prompts now <$> db w !! uid.
Proof.
  rewrite carried_out_db. destruct (db w !! uid) as [c|] eqn:Hc.
  - destruct (daily_plans_lookup prompts now (table_rows (db w)) (db w) uid c)
      as [[_ Hno]|[Hl _]]; [|done| |done].
    + intros r Hin. by apply elem_of_table_rows.
    + exfalso. apply Hno. apply list_elem_of_fmap. exists (mkRow uid c).
      split; [done|]. by apply table_rows_member.
  - by apply plans_absent.
Qed.

Lemma scan_delivering_db (w : World) (now : Z) (uid : Z) :
  db (carried_out (scan_plan now <$> table_rows (db w)) w) !! uid =
    scan_row now <$> db w !! uid.
Proof.
  rewrite carried_out_db. destruct (db w !! uid) as [c|] eqn:Hc.
  - assert (uid ∈ user_id <$> table_rows (db w)) as Hin.
    { apply list_elem_of_fmap. exists (mkRow uid c). split; [done|].
      by apply table_rows_member. }
    destruct (scan_plans_lookup now (table_rows (db w)) (db w) uid c)
      as [[Hl Hno]|(Hl & _ & Hdue)]; [|done| |].
    + intros r Hr. by apply elem_of_table_rows.
    + rewrite Hl. simpl. unfold scan_row. by rewrite (Hno Hin).
    + rewrite Hl. simpl. unfold scan_row. by rewrite Hdue.
  - by apply plans_absent.
Qed.

(** A row the scan has dealt with at [now] is not due at [now] any more. *)
Lemma scan_row_not_due (now : Z) (c : Columns) :
  reminder_due now (scan_row now c) = false.
Proof.
  unfold scan_row. destruct (reminder_due now c) eqn:Hdue; [|done].
  unfold reminder_due. simpl. destruct (last_prompt_ts c); [|done].
  by destruct (bool_decide (answered c = 1)).
Qed.

(** The table after any run of a job, at one user. *)
Lemma daily_job_lookup (w : World) (now : Z) (prompts : list string) (uid : Z) :
  (load_prompts w).1 = Return prompts →
  match db w !! uid with
  | None => db (daily_9_msk_job now w).2 !! uid = None
  | Some c =>
      db (daily_9_msk_job now w).2 !! uid = Some c
      ∨ answered c = 1 ∧ db (daily_9_msk_job now w).2 !! uid = Some (advanced prompts now c)
  end.
Proof.
  intros Hload. rewrite (daily_job_loop w now prompts Hload).
  destruct (loop_prefix (daily_plan prompts now) (table_rows (db w)) w)
    as (done & rest & Hrows & -> & _).
  rewrite carried_out_db. destruct (db w !! uid) as [c|] eqn:Hc.
  - destruct (daily_plans_lookup prompts now done (db w) uid c)
      as [[Hl _]|[Hl _]]; [|done|by left|].
    + intros r Hin. apply elem_of_table_rows. rewrite Hrows.
      apply elem_of_app. by left.
    + unfold daily_row in Hl. destruct (decide (answered c = 1)) as [Ha|Ha].
      * rewrite bool_decide_eq_true_2 in Hl by done. by right.
      * rewrite bool_decide_eq_false_2 in Hl by done. by left.
  - by apply plans_absent.
Qed.

Lemma scan_job_lookup (w : World) (now : Z) (uid : Z) :
  match db w !! uid with
  | None => db (reminder_scan_job now w).2 !! uid = None
  | Some c =>
      db (reminder_scan_job now w).2 !! uid = Some c
      ∨ reminder_due now c = true
        ∧ db (reminder_scan_job now w).2 !! uid = Some (mark_reminder_sent c)
  end.
Proof.
  rewrite reminder_scan_job_loop.
  destruct (loop_prefix (scan_plan now) (table_rows (db w)) w)
    as (done & rest & Hrows & -> & _).
  rewrite carried_out_db. destruct (db w !! uid) as [c|] eqn:Hc.
  - destruct (scan_plans_lookup now done (db w) uid c)
      as [[Hl _]|(Hl & _ & Hdue)]; [|done|by left|by right].
    intros r Hin. apply elem_of_table_rows. rewrite Hrows.
    apply elem_of_app. by left.
  - by apply plans_absent.
Qed.

(** ** Further properties: the handlers *)

(** [start] on any update that carries a user. *)
Lemma start_run (w : World) (upd : Update) (uid now : Z) :
  effective_user upd = Some uid →
  start upd now w =
    let w1 := with_db (insert_or_ignore uid) w in
    match (load_prompts w).1 with
    | Raise e => (Raise e, w1)
    | Return prompts =>
        match last_prompt_ts (default default_columns (db w !! uid)) with
        | Some _ => reply_text upd (L "reply.err.alreadysub" []) w1
        | None =>
            bind (reply_text upd (L "reply.sub" []))
              (fun _ => bind (subscript prompts 0)
                 (fun p => bind (send_prompt_to_user uid p)
                    (fun _ => db_mark_prompt_sent uid 0 now))) w1
        end
    end.
Proof.
  intros Hu. unfold start, effective_user_id. rewrite Hu.
  unfold bind at 1. simpl. unfold bind at 1. unfold db_ensure_user, modify at 1.
  unfold bind at 1. rewrite load_prompts_with_db.
  destruct (load_prompts w).1 as [prompts|e]; [|done].
  unfold bind at 1. unfold db_get_user at 1. simpl.
  rewrite insert_or_ignore_lookup. simpl.
  by destruct (last_prompt_ts _).
Qed.

Lemma stop_run_any (w : World) (upd : Update) (uid : Z) :
  effective_user upd = Some uid →
  stop upd w = reply_text upd (L "reply.unsub" []) (with_db (delete uid) w).
Proof.
  intros Hu. unfold stop, effective_user_id. rewrite Hu. done.
Qed.

Lemma on_text_run_any (w : World) (upd : Update) (uid : Z) :
  effective_user upd = Some uid →
  on_text upd w =
    match message upd with
    | None => (Return tt, w)
    | Some chat =>
        on_text {| message := Some chat; effective_user := Some uid |} w
    end.
Proof.
  destruct upd as [msg usr]. simpl. intros ->. by destruct msg.
Qed.

Lemma insert_or_ignore_other (uid k : Z) (t : gmap Z Columns) :
  k ≠ uid → insert_or_ignore uid t !! k = t !! k.
Proof.
  intros Hne. unfold insert_or_ignore. destruct (t !! uid); [done|].
  by rewrite lookup_insert_ne.
Qed.

(** What [start] can leave behind. *)
Lemma start_effects (w : World) (upd : Update) (uid now : Z) :
  effective_user upd = Some uid →
  let w' := (start upd now w).2 in
  (db w' = insert_or_ignore uid (db w)
   ∨ (db w !! uid) ≫= last_prompt_ts = None
     ∧ db w' = <[uid := first_prompt_row now]> (db w))
  ∧ (∃ new, outbox w' = outbox w ++ new
       ∧ Forall (fun m => message upd = Some (chat_id m) ∨ chat_id m = uid) new)
  ∧ net w' = net w
  ∧ prompts_file w' = prompts_file w.
Proof.
  intros Hu. simpl. rewrite (start_run w upd uid now Hu). simpl.
  destruct (load_prompts w).1 as [prompts|e]; simpl.
  2:{ split; [by left|]. split; [|done]. exists []. by rewrite app_nil_r. }
  destruct (last_prompt_ts (default default_columns (db w !! uid))) as [s|] eqn:Hts.
  - unfold reply_text, send_message, raise. destruct (message upd) as [chat|]; simpl.
    + destruct (net w _); simpl.
      * split; [by left|]. split; [|done]. eexists. split; [done|].
        apply Forall_singleton. by left.
      * split; [by left|]. split; [|done]. exists []. by rewrite app_nil_r.
    + split; [by left|]. split; [|done]. exists []. by rewrite app_nil_r.
  - assert ((db w !! uid) ≫= last_prompt_ts = None) as Hnone.
    { destruct (db w !! uid); simpl in *; done. }
    unfold reply_text, bind, subscript, send_prompt_to_user,
      db_mark_prompt_sent, modify, ret, send_message, raise.
    destruct (message upd) as [chat|]; simpl.
    2:{ split; [by left|]. split; [|done]. exists []. by rewrite app_nil_r. }
    destruct (net w _); simpl.
    2:{ split; [by left|]. split; [|done]. exists []. by rewrite app_nil_r. }
    destruct (prompts !! Z.to_nat 0) as [p|]; simpl.
    2:{ split; [by left|]. split; [|done]. eexists. split; [done|].
        apply Forall_singleton. by left. }
    destruct (net w (prompt_message uid p)); simpl.
    + split; [right; split; [done|apply alter_insert_or_ignore]|]. split; [|done].
      eexists. split; [by rewrite <- app_assoc|].
      apply Forall_cons. split; [by left|]. apply Forall_singleton. by right.
    + split; [by left|]. split; [|done]. eexists. split; [done|].
      apply Forall_singleton. by left.
Qed.

Lemma stop_effects (w : World) (upd : Update) (uid : Z) :
  effective_user upd = Some uid →
  let w' := (stop upd w).2 in
  db w' = delete uid (db w)
  ∧ (∃ new, outbox w' = outbox w ++ new
       ∧ Forall (fun m => message upd = Some (chat_id m) ∨ chat_id m = uid) new)
  ∧ net w' = net w
  ∧ prompts_file w' = prompts_file w.
Proof.
  intros Hu. simpl. rewrite (stop_run_any w upd uid Hu).
  unfold reply_text, send_message, raise. destruct (message upd) as [chat|]; simpl.
  - destruct (net w _); simpl.
    + split; [done|]. split; [|done]. eexists. split; [done|].
      apply Forall_singleton. by left.
    + split; [done|]. split; [|done]. exists []. by rewrite app_nil_r.
  - split; [done|]. split; [|done]. exists []. by rewrite app_nil_r.
Qed.

Lemma on_text_effects (w : World) (upd : Update) (uid : Z) :
  effective_user upd = Some uid →
  let w' := (on_text upd w).2 in
  (db w' = db w ∨ db w' = insert_or_ignore uid (db w)
   ∨ ∃ c s, db w !! uid = Some c ∧ last_prompt_ts c = Some s
            ∧ db w' = <[uid := mark_answered c]> (db w))
  ∧ (∃ new, outbox w' = outbox w ++ new
       ∧ Forall (fun m => message upd = Some (chat_id m) ∨ chat_id m = uid) new)
  ∧ net w' = net w
  ∧ prompts_file w' = prompts_file w.
Proof.
  intros Hu. simpl. rewrite (on_text_run_any w upd uid Hu).
  destruct (message upd) as [chat|]; simpl.
  2:{ split; [by left|]. split; [|done]. exists []. by rewrite app_nil_r. }
  split.
  { rewrite on_text_db. destruct (db w !! uid) as [c|] eqn:Hc.
    - destruct (last_prompt_ts c) as [s|] eqn:Hts; [|by left].
      destruct (bool_decide _); [by left|]. right. right. by exists c, s.
    - right. left. unfold insert_or_ignore. by rewrite Hc. }
  rewrite on_text_run. simpl. unfold send_message.
  destruct (last_prompt_ts _); [destruct (bool_decide _)|];
    (case_match; simpl;
     [split; [|done]; eexists; (split; [done|]); apply Forall_singleton; by left
     |split; [|done]; exists []; by rewrite app_nil_r]).
Qed.

(** ** Further properties: statements *)

(** X1.  [db_ensure_user] followed by [db_get_user] finds a row: the one
    the user had, or the default row if the user had none.  Ensuring twice
    is ensuring once, and no other user's row is affected. *)
Theorem ensure_then_get (w : World) (uid : Z) :
  let w1 := (db_ensure_user uid w).2 in
  (db_get_user uid w1).1 = Return (Some (mkRow uid (default default_columns (db w !! uid))))
  ∧ (db_ensure_user uid w1).2 = w1
  ∧ (is_Some (db w !! uid) → w1 = w)
  ∧ (∀ k, k ≠ uid → (db_get_user k w1).1 = (db_get_user k w).1).
Proof.
  simpl. unfold db_ensure_user, db_get_user, modify. simpl.
  split; [by rewrite insert_or_ignore_lookup|]. split.
  { apply with_db_fix. simpl. apply insert_or_ignore_present.
    rewrite insert_or_ignore_lookup. eauto. }
  split.
  { intros H. apply with_db_fix. by apply insert_or_ignore_present. }
  intros k Hk. by rewrite insert_or_ignore_other.
Qed.

(** X2.  The statements that update or delete a row do nothing for a
    user who has no row: no row is created and the world is the same. *)
Theorem updates_need_a_row (w : World) (uid idx sent_dt : Z) :
  db w !! uid = None →
  db_mark_prompt_sent uid idx sent_dt w = (Return tt, w)
  ∧ db_mark_answered uid w = (Return tt, w)
  ∧ db_mark_reminder_sent uid w = (Return tt, w)
  ∧ db_delete_user uid w = (Return tt, w).
Proof.
  intros H.
  unfold db_mark_prompt_sent, db_mark_answered, db_mark_reminder_sent,
    db_delete_user, modify.
  rewrite !with_db_fix; [done| | | |].
  - by apply delete_id.
  - by apply alter_absent.
  - by apply alter_absent.
  - by apply alter_absent.
Qed.

(** X3.  Recording a sent prompt overrides the two flags: whatever flag
    updates came before it, the row it leaves is the same.  The two flag
    updates are idempotent and commute. *)
Theorem prompt_sent_overrides_flags (w : World) (uid idx sent_dt : Z) :
  let sent w := (db_mark_prompt_sent uid idx sent_dt w).2 in
  let ans w := (db_mark_answered uid w).2 in
  let rem w := (db_mark_reminder_sent uid w).2 in
  sent (ans w) = sent w
  ∧ sent (rem w) = sent w
  ∧ sent (sent w) = sent w
  ∧ ans (ans w) = ans w
  ∧ rem (rem w) = rem w
  ∧ ans (rem w) = rem (ans w)
  ∧ (∀ c, db w !! uid = Some c →
       db (ans (sent w)) !! uid =
         Some {| prompt_index := idx; last_prompt_ts := Some (isoformat sent_dt);
                 answered := 1; reminder_sent := 0 |}).
Proof.
  simpl. unfold db_mark_prompt_sent, db_mark_answered, db_mark_reminder_sent, modify.
  simpl. unfold with_db. simpl.
  split_and!;
    try (f_equal; by rewrite !alter_twice).
  intros c Hc. by rewrite !lookup_alter_eq, Hc.
Qed.

(** X4.  Every writing statement of the store, for one user, leaves the
    rows of all other users, the outbox, the transport and the prompts
    file as they were. *)
Theorem store_updates_touch_one_user (w : World) (uid idx sent_dt : Z) :
  ∀ op, op ∈ [db_ensure_user uid; db_mark_prompt_sent uid idx sent_dt;
              db_mark_answered uid; db_mark_reminder_sent uid; db_delete_user uid] →
    (∀ k, k ≠ uid → db (op w).2 !! k = db w !! k)
    ∧ outbox (op w).2 = outbox w
    ∧ net (op w).2 = net w
    ∧ prompts_file (op w).2 = prompts_file w.
Proof.
  intros op Hop.
  repeat (apply elem_of_cons in Hop as [->|Hop]);
    try (by apply elem_of_nil in Hop);
    (split; [|done]; intros k Hk; simpl);
    first [ by apply insert_or_ignore_other
          | by rewrite lookup_alter_ne
          | by rewrite lookup_delete_ne ].
Qed.

(** X5.  [db_all_users] returns every stored user exactly once, with the
    columns stored for it, and leaves the world as it is. *)
Theorem snapshot_lists_each_user_once (w : World) :
  ∃ rows, db_all_users w = (Return rows, w)
    ∧ (∀ r, r ∈ rows ↔ db w !! user_id r = Some (columns r))
    ∧ NoDup (user_id <$> rows)
    ∧ length rows = size (db w).
Proof.
  exists (table_rows (db w)). split; [done|]. split; [apply elem_of_table_rows|].
  split; [apply table_rows_NoDup|].
  rewrite table_rows_perm, length_fmap. apply length_map_to_list.
Qed.

(** X6.  [load_prompts] returns a list exactly when the file holds a
    non-empty JSON array of strings, and then returns those strings in
    order; each other file has its own error; the world is never
    changed. *)
Theorem load_prompts_accepts_string_arrays (w : World) :
  (load_prompts w).2 = w
  ∧ (∀ prompts : list string,
       (load_prompts w).1 = Return prompts ↔
       prompts ≠ [] ∧ prompts_file w = Parsed (JArray (JString <$> prompts)))
  ∧ (prompts_file w = NoFile → (load_prompts w).1 = Raise FileNotFoundError)
  ∧ (prompts_file w = Unparsable → (load_prompts w).1 = Raise JSONDecodeError)
  ∧ (prompts_file w = Parsed (JArray []) →
       (load_prompts w).1 = Raise (ValueError "prompts.json is empty"))
  ∧ (∀ data, prompts_file w = Parsed data →
       (∀ items, data = JArray items → forallb is_str items = false) →
       (load_prompts w).1 = Raise (ValueError "prompts.json must be a JSON array of strings")).
Proof.
  split; [apply load_prompts_world|]. split; [|split; [|split; [|split]]].
  - intros prompts. split; [apply load_prompts_Return|].
    intros [Hne Hfile]. unfold load_prompts. rewrite Hfile.
    assert (forallb is_str (JString <$> prompts) = true) as ->.
    { clear. induction prompts as [|q l IH]; [done|]. by rewrite fmap_cons. }
    simpl. destruct prompts as [|q l]; [done|]. rewrite fmap_cons. simpl.
    do 2 f_equal. rewrite <- list_fmap_compose. clear.
    induction l as [|x l IH]; [done|]. rewrite fmap_cons. simpl. by f_equal.
  - unfold load_prompts. by intros ->.
  - unfold load_prompts. by intros ->.
  - unfold load_prompts. by intros ->.
  - unfold load_prompts. intros data -> Hbad.
    destruct data; try done. by rewrite (Hbad items eq_refl).
Qed.

(** X7.  Updates that lack a part.  Without a message or without a user
    [on_text] returns and does nothing.  Without a user [start] and [stop]
    raise before doing anything.  With a user but no message to reply to,
    [stop] has deleted the row when it raises, and [start], once the
    catalog is loaded, has ensured the row and raises without sending a
    prompt or recording one. *)
Theorem incomplete_updates (w : World) (upd : Update) (now : Z) :
  (message upd = None ∨ effective_user upd = None → on_text upd w = (Return tt, w))
  ∧ (effective_user upd = None →
       start upd now w = (Raise AttributeError, w)
       ∧ stop upd w = (Raise AttributeError, w))
  ∧ (∀ uid, effective_user upd = Some uid → message upd = None →
       stop upd w = (Raise AttributeError, with_db (delete uid) w)
       ∧ (∀ prompts, (load_prompts w).1 = Return prompts →
            start upd now w = (Raise AttributeError, with_db (insert_or_ignore uid) w))).
Proof.
  split; [|split].
  - unfold on_text. intros [->| ->]; [done|]. by destruct (message upd).
  - intros Hu. unfold start, stop, effective_user_id. by rewrite Hu.
  - intros uid Hu Hm. split.
    + rewrite (stop_run_any w upd uid Hu). unfold reply_text. by rewrite Hm.
    + intros prompts Hload. rewrite (start_run w upd uid now Hu), Hload. simpl.
      destruct (last_prompt_ts _); unfold reply_text, bind; by rewrite Hm.
Qed.

(** X8.  The three handlers are confined to the user of the update: the
    rows of other users are left alone, every message goes to the chat of
    the update or to the user, and the transport and the prompts file are
    not touched. *)
Theorem handlers_are_confined (w : World) (upd : Update) (uid now : Z) :
  effective_user upd = Some uid →
  confined_to upd uid w (start upd now w).2
  ∧ confined_to upd uid w (stop upd w).2
  ∧ confined_to upd uid w (on_text upd w).2.
Proof.
  intros Hu. unfold confined_to. split; [|split].
  - destruct (start_effects w upd uid now Hu) as (Hdb & Hout & Hnet & Hfile).
    split; [|done]. intros k Hk. destruct Hdb as [->|[_ ->]].
    + by apply insert_or_ignore_other.
    + by rewrite lookup_insert_ne.
  - destruct (stop_effects w upd uid Hu) as (Hdb & Hout & Hnet & Hfile).
    split; [|done]. intros k Hk. rewrite Hdb. by rewrite lookup_delete_ne.
  - destruct (on_text_effects w upd uid Hu) as (Hdb & Hout & Hnet & Hfile).
    split; [|done]. intros k Hk. destruct Hdb as [->|[->|(c & s & _ & _ & ->)]].
    + done.
    + by apply insert_or_ignore_other.
    + by rewrite lookup_insert_ne.
Qed.

(** X9.  Any daily run, once the catalog is loaded, processes a prefix of
    the snapshot and nothing else: one message is delivered for each row of
    the prefix, in order (the next prompt if the row was answered, the
    reminder text if not); the rows of the prefix are advanced if they
    were answered and unchanged if not; the other rows are unchanged; no
    user is added or removed.  The run returns exactly when the prefix is
    the whole snapshot. *)
Theorem daily_run_is_a_prefix (w : World) (now : Z) (prompts : list string) :
  (load_prompts w).1 = Return prompts →
  let r := daily_9_msk_job now w in
  ∃ done rest,
    table_rows (db w) = done ++ rest
    ∧ outbox r.2 = outbox w ++ (daily_message prompts <$> done)
    ∧ (∀ u, u ∈ done → db r.2 !! user_id u = Some (daily_row prompts now (columns u)))
    ∧ (∀ u, u ∈ rest → db r.2 !! user_id u = Some (columns u))
    ∧ dom (db r.2) = dom (db w)
    ∧ (r.1 = Return tt ↔ rest = []).
Proof.
  intros Hload. simpl. rewrite (daily_job_loop w now prompts Hload).
  destruct (loop_prefix (daily_plan prompts now) (table_rows (db w)) w)
    as (done & rest & Hrows & Hw & Hout).
  exists done, rest. rewrite Hw, carried_out_outbox, carried_out_db, daily_plan_messages.
  assert (∀ u, u ∈ done → db w !! user_id u = Some (columns u)) as Hdone.
  { intros u Hin. apply elem_of_table_rows. rewrite Hrows. apply elem_of_app. by left. }
  pose proof (table_rows_NoDup (db w)) as Hnd.
  rewrite Hrows, fmap_app in Hnd. apply NoDup_app in Hnd as (_ & Hdisj & _).
  split; [done|]. split; [done|]. split; [|split; [|split]].
  - intros u Hin.
    destruct (daily_plans_lookup prompts now done (db w) (user_id u) (columns u)
                Hdone (Hdone u Hin)) as [[_ Hno]|[Hl _]]; [|done].
    exfalso. apply Hno. apply list_elem_of_fmap. by exists u.
  - intros u Hin.
    assert (db w !! user_id u = Some (columns u)) as Hu.
    { apply elem_of_table_rows. rewrite Hrows. apply elem_of_app. by right. }
    destruct (daily_plans_lookup prompts now done (db w) (user_id u) (columns u)
                Hdone Hu) as [[Hl _]|[_ Hyes]]; [done|].
    exfalso. apply (Hdisj (user_id u) Hyes). apply list_elem_of_fmap. by exists u.
  - apply set_eq. intros uid. rewrite !elem_of_dom.
    destruct (db w !! uid) as [c|] eqn:Hc.
    + destruct (daily_plans_lookup prompts now done (db w) uid c Hdone Hc)
        as [[-> _]|[-> _]]; split; eauto.
    + by rewrite (plans_absent _ (db w) uid Hc).
  - destruct Hout as [[-> ->]|(-> & u & rest' & _ & _ & _ & -> & _)]; by split.
Qed.

(** X10.  A daily run with a loaded catalog and a transport that delivers
    returns, and every user is contacted: the outbox gains one message per
    stored user, in the order of the snapshot, and the table is the old
    one with every answered row advanced. *)
Theorem daily_run_delivering (w : World) (now : Z) (prompts : list string) :
  (load_prompts w).1 = Return prompts →
  (∀ m, net w m = true) →
  daily_9_msk_job now w =
    (Return tt,
     {| db := daily_row prompts now <$> db w;
        outbox := outbox w ++ (daily_message prompts <$> table_rows (db w));
        net := net w;
        prompts_file := prompts_file w |}).
Proof.
  intros Hload Hnet. rewrite (daily_delivering_run w now prompts Hload Hnet).
  f_equal. apply world_eq; simpl.
  - apply map_eq. intros uid. rewrite daily_delivering_db. by rewrite lookup_fmap.
  - by rewrite carried_out_outbox, daily_plan_messages.
  - apply carried_out_net.
  - apply carried_out_prompts_file.
Qed.

(** X11.  Whatever its outcome, a daily run never adds or removes a user,
    never changes a row whose [answered] is not [1], and changes an
    answered row only into the advanced row: flags at [0], the run's
    instant as timestamp, and an index that is a position of the catalog
    the run has read. *)
Theorem daily_run_writes_only_advances (w : World) (now uid : Z) :
  let w' := (daily_9_msk_job now w).2 in
  match db w !! uid with
  | None => db w' !! uid = None
  | Some c =>
      db w' !! uid = Some c
      ∨ ∃ prompts,
          (load_prompts w).1 = Return prompts
          ∧ answered c = 1
          ∧ db w' !! uid = Some (advanced prompts now c)
          ∧ 0 ≤ prompt_index (advanced prompts now c) < Z.of_nat (length prompts)
  end.
Proof.
  simpl. destruct (load_prompts w).1 as [prompts|e] eqn:Hload.
  - pose proof (daily_job_lookup w now prompts uid Hload) as H.
    destruct (db w !! uid) as [c|]; [|done].
    destruct H as [?|[Ha Hl]]; [by left|right].
    exists prompts. split; [done|]. split; [done|]. split; [done|].
    simpl. apply Z.mod_pos_bound.
    apply load_prompts_Return in Hload as [Hne _].
    destruct prompts; [done|simpl; lia].
  - unfold daily_9_msk_job, bind. rewrite load_prompts_eq, Hload. simpl.
    destruct (db w !! uid); [by left|done].
Qed.

(** X12.  A reminder scan under a transport that delivers returns; it
    reminds exactly the users whose row is due, in the order of the
    snapshot, and sets their [reminder_sent]; and a second scan at the
    same instant, whatever the transport is by then, sends nothing and
    changes nothing. *)
Theorem scan_run_delivering (w : World) (now : Z) :
  (∀ m, net w m = true) →
  let w' :=
    {| db := scan_row now <$> db w;
       outbox := outbox w ++
         (reminder_message <$>
            (user_id <$> filter (fun r => reminder_due now (columns r) = true)
                           (table_rows (db w))));
       net := net w;
       prompts_file := prompts_file w |} in
  reminder_scan_job now w = (Return tt, w')
  ∧ ∀ transport, reminder_scan_job now (with_net transport w') =
                   (Return tt, with_net transport w').
Proof.
  intros Hnet w'. split.
  - rewrite reminder_scan_job_loop, loop_delivering by done.
    f_equal. apply world_eq; simpl.
    + apply map_eq. intros uid. rewrite scan_delivering_db. by rewrite lookup_fmap.
    + by rewrite carried_out_outbox, scan_plan_messages.
    + apply carried_out_net.
    + apply carried_out_prompts_file.
  - intros transport. rewrite reminder_scan_job_loop. apply loop_idle.
    intros r Hin. apply elem_of_table_rows in Hin. simpl in Hin.
    rewrite lookup_fmap in Hin. unfold scan_plan.
    destruct (db w !! user_id r) as [c|]; [|done]. simpl in Hin.
    injection Hin as <-. by rewrite scan_row_not_due.
Qed.

(** X13.  Whatever its outcome, a reminder scan only ever sets
    [reminder_sent], and only on rows that are due: no user is added or
    removed, no index, timestamp or [answered] is changed; and every
    message it sends is the reminder text. *)
Theorem scan_run_only_sets_the_flag (w : World) (now : Z) :
  let r := reminder_scan_job now w in
  (∀ uid,
     match db w !! uid with
     | None => db r.2 !! uid = None
     | Some c =>
         db r.2 !! uid = Some c
         ∨ reminder_due now c = true ∧ db r.2 !! uid = Some (mark_reminder_sent c)
     end)
  ∧ (∃ users, outbox r.2 = outbox w ++ (reminder_message <$> users))
  ∧ net r.2 = net w
  ∧ prompts_file r.2 = prompts_file w.
Proof.
  simpl. split; [intros uid; apply scan_job_lookup|].
  rewrite reminder_scan_job_loop.
  destruct (loop_prefix (scan_plan now) (table_rows (db w)) w)
    as (done & rest & Hrows & Hw & Hout).
  rewrite Hw, carried_out_outbox, scan_plan_messages, carried_out_net,
    carried_out_prompts_file.
  split; [by eexists|]. done.
Qed.

(** ** Further properties: consistency of the table *)

Lemma default_columns_consistent : row_consistent default_columns.
Proof. unfold row_consistent. simpl. split_and!; [by left|by left|done|done|done]. Qed.

Lemma first_prompt_row_consistent (now : Z) : row_consistent (first_prompt_row now).
Proof.
  unfold row_consistent. simpl.
  split_and!; [by left|by left|done|done|intros s [= <-]; eauto].
Qed.

Lemma advanced_consistent (prompts : list string) (now : Z) (c : Columns) :
  prompts ≠ [] → row_consistent (advanced prompts now c).
Proof.
  intros Hne. unfold row_consistent. simpl.
  split_and!; [by left|by left| |done|intros s [= <-]; eauto].
  apply Z.mod_pos_bound. destruct prompts; [done|simpl; lia].
Qed.

Lemma mark_answered_consistent (c : Columns) (s : string) :
  last_prompt_ts c = Some s → row_consistent c → row_consistent (mark_answered c).
Proof.
  intros Hts (Ha & Hr & Hi & Hd & Hs). unfold row_consistent. simpl.
  split_and!; [by right|done|done|by rewrite Hts|done].
Qed.

Lemma mark_reminder_sent_consistent (now : Z) (c : Columns) :
  reminder_due now c = true → row_consistent c → row_consistent (mark_reminder_sent c).
Proof.
  intros Hdue (Ha & Hr & Hi & Hd & Hs). unfold row_consistent. simpl.
  split_and!; [done|by right|done| |done].
  unfold reminder_due in Hdue. by destruct (last_prompt_ts c).
Qed.

Lemma insert_consistent (uid : Z) (c : Columns) (t : gmap Z Columns) :
  row_consistent c → table_consistent t → table_consistent (<[uid := c]> t).
Proof.
  intros Hc Ht k c'. destruct (decide (k = uid)) as [->|Hne].
  - rewrite lookup_insert_eq. by intros [= <-].
  - rewrite lookup_insert_ne by done. apply Ht.
Qed.

Lemma insert_or_ignore_consistent (uid : Z) (t : gmap Z Columns) :
  table_consistent t → table_consistent (insert_or_ignore uid t).
Proof.
  intros Ht. unfold insert_or_ignore. destruct (t !! uid); [done|].
  apply insert_consistent; [apply default_columns_consistent|done].
Qed.

(** One event keeps the table consistent, whatever its outcome. *)
Lemma handle_consistent (e : Event) (w : World) :
  table_consistent (db w) → table_consistent (db (handle e w)).
Proof.
  intros Hw. destruct e as [upd now|upd|upd|now|now|transport file]; simpl.
  - destruct (effective_user upd) as [uid|] eqn:Hu.
    + destruct (start_effects w upd uid now Hu) as ([->|[_ ->]] & _).
      * by apply insert_or_ignore_consistent.
      * apply insert_consistent; [apply first_prompt_row_consistent|done].
    + unfold start, effective_user_id. by rewrite Hu.
  - destruct (effective_user upd) as [uid|] eqn:Hu.
    + destruct (stop_effects w upd uid Hu) as (-> & _).
      intros k c Hk. apply lookup_delete_Some in Hk as [_ Hk]. by apply (Hw k).
    + unfold stop, effective_user_id. by rewrite Hu.
  - destruct (effective_user upd) as [uid|] eqn:Hu.
    + destruct (on_text_effects w upd uid Hu)
        as ([->|[->|(c & s & Hc & Hts & ->)]] & _).
      * done.
      * by apply insert_or_ignore_consistent.
      * apply insert_consistent; [|done].
        apply (mark_answered_consistent c s Hts). by apply (Hw uid).
    + unfold on_text. rewrite Hu. by destruct (message upd).
  - intros uid c' Hc'.
    destruct (load_prompts w).1 as [prompts|e] eqn:Hload.
    + pose proof (daily_job_lookup w now prompts uid Hload) as H.
      destruct (db w !! uid) as [c|] eqn:Hc; [|congruence].
      destruct H as [H|[_ H]]; rewrite H in Hc'; injection Hc' as <-.
      * by apply (Hw uid).
      * apply advanced_consistent. by apply load_prompts_Return in Hload as [? _].
    + unfold daily_9_msk_job, bind in Hc'. rewrite load_prompts_eq, Hload in Hc'.
      by apply (Hw uid).
  - intros uid c' Hc'. pose proof (scan_job_lookup w now uid) as H.
    destruct (db w !! uid) as [c|] eqn:Hc; [|congruence].
    destruct H as [H|[Hdue H]]; rewrite H in Hc'; injection Hc' as <-.
    + by apply (Hw uid).
    + apply (mark_reminder_sent_consistent now c Hdue). by apply (Hw uid).
  - done.
Qed.

Lemma run_events_consistent (events : list Event) (w : World) :
  table_consistent (db w) → table_consistent (db (run_events events w)).
Proof.
  revert w. induction events as [|e events IH]; intros w Hw; [done|].
  simpl. apply IH. by apply handle_consistent.
Qed.

(** X14.  Starting from an empty table, after any sequence of handler
    calls, job runs (whatever their outcomes) and changes of the
    environment, the table is consistent: flags are [0] or [1], indices
    are not negative, a row without a timestamp is the default row, and
    every timestamp was written by [isoformat].  So, if [fromisoformat]
    reads what [isoformat] writes, it reads every stored timestamp; and
    if the whole [try] block of the scan succeeds on what [isoformat]
    writes, the reminder scan never passes over a row for its
    timestamp. *)
Theorem reachable_tables_are_consistent (events : list Event) (w : World) :
  db w = ∅ →
  (∀ t, is_Some (fromisoformat (isoformat t))) →
  ∀ uid c,
    db (run_events events w) !! uid = Some c →
    row_consistent c
    ∧ ∀ s, last_prompt_ts c = Some s →
        is_Some (fromisoformat s)
        ∧ ((∀ t, is_Some (parse_last_dt (isoformat t))) → is_Some (parse_last_dt s)).
Proof.
  intros Hempty Hlib uid c Hc.
  assert (row_consistent c) as Hrow.
  { apply (run_events_consistent events w) with uid; [|done].
    intros k c'. by rewrite Hempty, lookup_empty. }
  split; [done|]. intros s Hs.
  destruct Hrow as (_ & _ & _ & _ & Hiso). destruct (Hiso s Hs) as [t ->].
  split; [apply Hlib|]. intros Hblock. apply Hblock.
Qed.

(** ** Further properties: composing the operations *)

Lemma no_rows_for_user (rows : list Row) (uid : Z) :
  uid ∉ user_id <$> rows → filter (fun r => user_id r = uid) rows = [].
Proof.
  induction rows as [|r rows IH]; [done|]. rewrite fmap_cons. intros Hnot.
  apply not_elem_of_cons in Hnot as [Hne Hnot].
  rewrite filter_cons_False by done. by apply IH.
Qed.

Lemma one_row_for_user (rows : list Row) (uid : Z) (c : Columns) :
  NoDup (user_id <$> rows) → mkRow uid c ∈ rows →
  filter (fun r => user_id r = uid) rows = [mkRow uid c].
Proof.
  induction rows as [|r rows IH]; intros Hnd Hin; [by apply elem_of_nil in Hin|].
  rewrite fmap_cons in Hnd. apply NoDup_cons in Hnd as [Hfresh Hnd].
  apply elem_of_cons in Hin as [<-|Hin].
  - rewrite filter_cons_True by done. f_equal. by apply no_rows_for_user.
  - rewrite filter_cons_False; [by apply IH|].
    intros Hr. apply Hfresh. apply list_elem_of_fmap. exists (mkRow uid c).
    split; [by rewrite Hr|done].
Qed.

Lemma daily_messages_to (prompts : list string) (rows : list Row) (uid : Z) :
  filter (fun m => chat_id m = uid) (daily_message prompts <$> rows) =
    daily_message prompts <$> filter (fun r => user_id r = uid) rows.
Proof.
  assert (∀ r, chat_id (daily_message prompts r) = user_id r) as Hchat.
  { intros r. unfold daily_message. by destruct (bool_decide _). }
  induction rows as [|r rows IH]; [done|].
  rewrite fmap_cons, !filter_cons, Hchat, IH.
  by destruct (decide (user_id r = uid)).
Qed.

(** X15.  A user who was never sent a prompt subscribes in a private chat,
    answers, and the next daily run comes, under a transport that
    delivers.  Then the user has been sent exactly four messages by these
    three steps (the subscription reply, the first prompt, the
    acknowledgement and the second prompt, which is the first one again
    when the catalog has one entry), and the row holds index [1 mod N], the
    instant of the daily run and both flags at [0]. *)
Theorem subscribe_answer_advance (w : World) (uid t0 t1 : Z) (prompts : list string) :
  (db w !! uid) ≫= last_prompt_ts = None →
  (load_prompts w).1 = Return prompts →
  (∀ m, net w m = true) →
  let w1 := (start (private_message uid) t0 w).2 in
  let w2 := (on_text (private_message uid) w1).2 in
  let w3 := (daily_9_msk_job t1 w2).2 in
  let N := Z.of_nat (length prompts) in
  ∃ p0 p1,
    prompts !! 0%nat = Some p0
    ∧ prompts !! Z.to_nat (1 `mod` N) = Some p1
    ∧ db w3 !! uid =
        Some {| prompt_index := 1 `mod` N; last_prompt_ts := Some (isoformat t1);
                answered := 0; reminder_sent := 0 |}
    ∧ sent_to uid w3 =
        sent_to uid w ++
          [reply_message uid "reply.sub"; prompt_message uid p0;
           reply_message uid "reply.complete.received"; prompt_message uid p1].
Proof.
  intros Hts Hload Hnet w1 w2 w3 N.
  destruct prompts as [|p0 rest];
    [by apply load_prompts_Return in Hload as [? _]|].
  destruct (next_index_in_range 0 (p0 :: rest)) as [p1 Hp1]; [done|].
  exists p0, p1. split; [done|]. split; [done|].
  (* the subscription *)
  assert (db w1 !! uid = Some (first_prompt_row t0)
          ∧ outbox w1 = outbox w ++ [reply_message uid "reply.sub"; prompt_message uid p0]
          ∧ net w1 = net w ∧ prompts_file w1 = prompts_file w) as (Hdb1 & Hout1 & Hnet1 & Hfile1).
  { unfold w1, private_message.
    rewrite (start_never_prompted w uid uid t0 p0 rest Hts Hload). simpl.
    rewrite !Hnet. simpl. rewrite lookup_alter_eq, insert_or_ignore_lookup.
    split; [by destruct (db w !! uid)|]. split; [by rewrite <- app_assoc|done]. }
  (* the answer *)
  assert (db w2 !! uid = Some (mark_answered (first_prompt_row t0))
          ∧ outbox w2 = outbox w1 ++ [reply_message uid "reply.complete.received"]
          ∧ net w2 = net w ∧ prompts_file w2 = prompts_file w) as (Hdb2 & Hout2 & Hnet2 & Hfile2).
  { unfold w2, private_message. rewrite on_text_run. simpl. rewrite Hdb1. simpl.
    unfold send_message. simpl. rewrite Hnet1, Hnet. simpl.
    rewrite lookup_alter_eq, insert_or_ignore_lookup, Hdb1. done. }
  (* the daily run *)
  assert ((load_prompts w2).1 = Return (p0 :: rest)) as Hload2.
  { rewrite (load_prompts_file w w2); [done|]. by rewrite Hfile2. }
  unfold w3. rewrite (daily_delivering_run w2 t1 (p0 :: rest) Hload2)
    by (intros m; by rewrite Hnet2). simpl.
  split.
  - rewrite daily_delivering_db, Hdb2. simpl. unfold daily_row. simpl.
    unfold advanced. simpl. done.
  - unfold sent_to. rewrite carried_out_outbox, daily_plan_messages.
    rewrite filter_app, daily_messages_to.
    rewrite (one_row_for_user _ uid (mark_answered (first_prompt_row t0)));
      [|apply table_rows_NoDup|by apply table_rows_member].
    rewrite Hout2, Hout1, !filter_app. rewrite <- !app_assoc. f_equal.
    rewrite !filter_cons_True by done. rewrite !filter_nil. simpl.
    do 3 f_equal. unfold daily_message. simpl.
    change (length (p0 :: rest)) with (S (length rest)) in Hp1.
    by rewrite Hp1.
Qed.

(** X16.  The reminder follows the recorded send time while the offset of
    Moscow stays the same.  After [db_mark_prompt_sent] at the instant
    [t], if the [try] block of the scan reads the text written for [t] as
    the Moscow reading of [t], and the offset of Moscow at [now] is the
    one at [t], the reminder scan passes over the row before [t + 24h]
    and, from [t + 24h] on, sends the reminder and sets [reminder_sent];
    and so does the whole job for this user when the transport
    delivers. *)
Theorem reminder_follows_the_send_time (w : World) (uid idx t now : Z) (c0 : Columns) :
  db w !! uid = Some c0 →
  parse_last_dt (isoformat t) = Some (msk_wall t) →
  TZ_MSK now = TZ_MSK t →
  let w1 := (db_mark_prompt_sent uid idx t w).2 in
  let c1 := {| prompt_index := idx; last_prompt_ts := Some (isoformat t);
               answered := 0; reminder_sent := 0 |} in
  db w1 !! uid = Some c1
  ∧ (now < t + timedelta_hours 24 →
       reminder_scan_user now (mkRow uid c1) w1 = (Return tt, w1))
  ∧ (t + timedelta_hours 24 ≤ now →
       net w (reminder_message uid) = true →
       let r := reminder_scan_user now (mkRow uid c1) w1 in
       r.1 = Return tt
       ∧ db r.2 !! uid = Some (mark_reminder_sent c1)
       ∧ outbox r.2 = outbox w ++ [reminder_message uid])
  ∧ ((∀ m, net w m = true) →
       (reminder_scan_job now w1).1 = Return tt
       ∧ db (reminder_scan_job now w1).2 !! uid =
           Some (if bool_decide (t + timedelta_hours 24 ≤ now)
                 then mark_reminder_sent c1 else c1)).
Proof.
  intros Hc Hlib Hoff w1 c1.
  assert (db w1 !! uid = Some c1) as Hc1.
  { unfold w1, db_mark_prompt_sent, modify. simpl. by rewrite lookup_alter_eq, Hc. }
  assert (msk_wall now - msk_wall t = now - t) as Hdiff.
  { unfold msk_wall. rewrite Hoff. lia. }
  split; [done|]. split; [|split].
  - intros Hearly. apply reminder_scan_user_skip. unfold no_reminder_due. simpl.
    rewrite Hlib. right. right. lia.
  - intros Hlate Hnet. simpl.
    rewrite (reminder_scan_user_due w1 now (mkRow uid c1) (isoformat t) (msk_wall t));
      [|done|done|done|done|lia].
    simpl. rewrite Hnet. simpl. split; [done|]. split; [|done].
    by rewrite !lookup_alter_eq, Hc.
  - intros Hnet. rewrite reminder_scan_job_loop, loop_delivering by done.
    split; [done|]. cbn [snd]. rewrite scan_delivering_db, Hc1. simpl. f_equal.
    unfold scan_row, reminder_due. simpl. rewrite Hlib.
    destruct (decide (t + timedelta_hours 24 ≤ now)) as [Hlate|Hearly].
    + by rewrite !bool_decide_eq_true_2 by lia.
    + by rewrite !bool_decide_eq_false_2 by lia.
Qed.

End Bot.

(** ** Further properties: locales *)

Lemma store_files_lookup (files : list (string * option json))
    (locales : gmap string json) :
  Forall (fun f => is_Some f.2) files →
  ∃ locales',
    Locales.store_files files locales = (Return tt, locales')
    ∧ ∀ name, locales' !! name =
        match Locales.last_with_stem name files with
        | Some data => Some data
        | None => locales !! name
        end.
Proof.
  revert locales. induction files as [|[i content] files IH]; intros locales Hall.
  - by exists locales.
  - apply Forall_cons in Hall as [[data Hdata] Hall]. simpl in Hdata. subst content.
    destruct (IH (<[Locales.stem i := data]> locales) Hall) as (locales' & Hrun & Hlook).
    exists locales'. split; [done|]. intros name. rewrite Hlook. simpl.
    destruct (Locales.last_with_stem name files); [done|].
    destruct (decide (Locales.stem i = name)) as [<-|Hne].
    + rewrite bool_decide_eq_true_2 by done. apply lookup_insert_eq.
    + rewrite bool_decide_eq_false_2 by done. by apply lookup_insert_ne.
Qed.

Lemma store_files_app (pre post : list (string * option json))
    (locales : gmap string json) :
  Locales.store_files (pre ++ post) locales =
    match Locales.store_files pre locales with
    | (Return _, locales') => Locales.store_files post locales'
    | (Raise e, locales') => (Raise e, locales')
    end.
Proof.
  revert locales. induction pre as [|[i [data|]] pre IH]; intros locales; simpl; auto.
Qed.

(** X17.  [load_locales] stores each file under its name up to the first
    dot, so that of several files with one such stem the last of the
    listing remains; names not in the listing keep what they had.  A
    directory that cannot be listed changes nothing; a file that does not
    parse stops the loading with the files before it stored. *)
Theorem locales_are_keyed_by_stem (locales : gmap string json) :
  Locales.load_locales None locales = (Raise FileNotFoundError, locales)
  ∧ (∀ files, Forall (fun f => is_Some f.2) files →
       ∃ locales',
         Locales.load_locales (Some files) locales = (Return tt, locales')
         ∧ ∀ name, locales' !! name =
             match Locales.last_with_stem name files with
             | Some data => Some data
             | None => locales !! name
             end)
  ∧ (∀ pre i post, Forall (fun f => is_Some f.2) pre →
       ∃ locales',
         Locales.load_locales (Some (pre ++ (i, None) :: post)) locales =
           (Raise JSONDecodeError, locales')
         ∧ ∀ name, locales' !! name =
             match Locales.last_with_stem name pre with
             | Some data => Some data
             | None => locales !! name
             end)
  ∧ (∀ i, Locales.stem (Locales.stem i) = Locales.stem i)
  ∧ (∀ a b, Locales.stem a = a → Locales.stem (a +:+ String "."%char b) = a).
Proof.
  split; [done|]. split; [|split; [|split]].
  - intros files Hall. by apply store_files_lookup.
  - intros pre i post Hall.
    destruct (store_files_lookup pre locales Hall) as (locales' & Hrun & Hlook).
    exists locales'. split; [|done]. simpl. by rewrite store_files_app, Hrun.
  - induction i as [|a i IH]; [done|]. simpl.
    destruct (Ascii.eqb a ".") eqn:Ha; [done|]. simpl. by rewrite Ha, IH.
  - induction a as [|x a IH]; intros b Ha; simpl in *.
    + done.
    + destruct (Ascii.eqb x "."); [done|]. injection Ha as Ha. by rewrite IH.
Qed.

(** X18.  After the locale files are loaded into an empty dictionary, what
    [L] returns is decided by the last file whose stem is [ru_RU]: without
    one, or when it has no member of that key, or when formatting raises
    [KeyError], the text is ["ru_RU:"] followed by the key; with a string
    member the text is the formatted template; and [L] raises only for a
    file that is not an object, a member that is not a string, or another
    error of the formatting. *)
Theorem L_after_load (str_format : string → list string → Locales.Formatted)
    (files : list (string * option json)) (key : string) (args : list string) :
  Forall (fun f => is_Some f.2) files →
  let locales := (Locales.load_locales (Some files) ∅).2 in
  Locales.L str_format locales key args =
    match Locales.last_with_stem "ru_RU" files with
    | None => Return ("ru_RU:" +:+ key)
    | Some (JObject members) =>
        match Locales.lookup_member key members with
        | None => Return ("ru_RU:" +:+ key)
        | Some (JString template) =>
            match str_format template args with
            | Locales.FormatReturn s => Return s
            | Locales.FormatKeyError => Return ("ru_RU:" +:+ key)
            | Locales.FormatRaise e => Raise e
            end
        | Some _ => Raise AttributeError
        end
    | Some _ => Raise TypeError
    end.
Proof.
  intros Hall. simpl.
  destruct (store_files_lookup files ∅ Hall) as (locales' & Hrun & Hlook).
  rewrite Hrun. simpl. unfold Locales.L. rewrite Hlook.
  destruct (Locales.last_with_stem "ru_RU" files) as [data|]; [done|].
  by rewrite lookup_empty.
Qed.

(** ** Concrete runs *)

(** C1, witness: a new user subscribes and receives ["P0"]. *)
Lemma start_sends_first_prompt_witness :
  start calendar_isoformat (private_message 7) march_1 fresh_world =
    (Return tt,
     {| db := {[ 7 := {| prompt_index := 0;
                         last_prompt_ts := Some "2025-03-01T09:00:00+03:00"%string;
                         answered := 0; reminder_sent := 0 |} ]};
        outbox := [reply_message 7 "reply.sub"; prompt_message 7 "P0"];
        net := delivering;
        prompts_file := three_prompts |}).
Proof.
  apply (start_sends_first_prompt calendar_isoformat fresh_world 7 7 march_1
           "P0" ["P1"; "P2"]%string); reflexivity.
Defined.

(** C1, counterexample: the daily cycle meets a row that was never sent a
    prompt.  It does not send [prompts[0]] and records nothing: the user
    gets the reminder text and the row stays without a timestamp. *)
Lemma daily_cycle_has_no_bootstrap :
  db never_prompted_world !! 7 = Some default_columns
  ∧ last_prompt_ts default_columns = None
  ∧ daily_9_msk_job calendar_isoformat march_1 never_prompted_world =
      (Return tt,
       {| db := {[ 7 := default_columns ]};
          outbox := [reminder_message 7];
          net := delivering;
          prompts_file := three_prompts |})
  ∧ prompt_message 7 "P0" ∉
      outbox (daily_9_msk_job calendar_isoformat march_1 never_prompted_world).2.
Proof.
  split; [reflexivity|]. split; [reflexivity|]. split; [by vm_compute|].
  vm_compute. intros H. by apply list_elem_of_singleton in H.
Qed.

(** C2, witness: the send to user 1, first in the batch, is refused. *)
Lemma daily_job_stops_at_failure_witness :
  daily_9_msk_job calendar_isoformat march_2 blocked_world =
    (Raise TelegramError, blocked_world)
  ∧ TelegramError = TelegramError ∧ blocked_world = blocked_world.
Proof.
  apply (daily_job_stops_at_failure calendar_isoformat blocked_world blocked_world
           blocked_world march_2 ["P0"; "P1"; "P2"]%string
           [] [mkRow 2 (answered_row 0)] (mkRow 1 (answered_row 0)) TelegramError);
    reflexivity.
Defined.

(** C2, counterexample: the failure on user 1 ends the run.  User 2, whose
    prompt the transport would deliver, is not processed: the run leaves
    no message and the table as it was, while processing user 2 alone
    sends ["P1"] and advances the row. *)
Lemma failure_aborts_the_batch :
  table_rows (db blocked_world) = [mkRow 1 (answered_row 0); mkRow 2 (answered_row 0)]
  ∧ daily_9_msk_job calendar_isoformat march_2 blocked_world =
      (Raise TelegramError, blocked_world)
  ∧ outbox blocked_world = []
  ∧ db blocked_world !! 2 = Some (answered_row 0)
  ∧ maybe_send_next_prompt calendar_isoformat (mkRow 2 (answered_row 0))
      ["P0"; "P1"; "P2"]%string march_2 blocked_world =
      (Return tt,
       {| db := {[ 1 := answered_row 0;
                   2 := {| prompt_index := 1;
                           last_prompt_ts := Some "2025-03-02T09:00:00+03:00"%string;
                           answered := 0; reminder_sent := 0 |} ]};
          outbox := [prompt_message 2 "P1"];
          net := net blocked_world;
          prompts_file := three_prompts |}).
Proof. repeat split; by vm_compute. Qed.

(** C3, witness: the scenario of a user who answered prompt 0 of three. *)
Lemma advance_cycles_through_catalog_witness :
  (∀ sent_time : Z, ∃ p,
      ["P0"; "P1"; "P2"]%string !! Z.to_nat 1 = Some p ∧
      (delivering (prompt_message 2 p) = true →
       maybe_send_next_prompt calendar_isoformat (mkRow 2 (answered_row 0))
         ["P0"; "P1"; "P2"]%string sent_time (with_net delivering blocked_world) =
         (Return tt,
          {| db := <[2 := {| prompt_index := 1;
                             last_prompt_ts := Some (calendar_isoformat sent_time);
                             answered := 0; reminder_sent := 0 |}]>
                     (db blocked_world);
             outbox := [prompt_message 2 p];
             net := delivering;
             prompts_file := three_prompts |})))
  ∧ (∀ clock : nat → Z, (∀ m, delivering m = true) → ∃ w',
      rounds calendar_isoformat 3 2 ["P0"; "P1"; "P2"]%string clock
        (with_net delivering blocked_world) = (Return tt, w') ∧
      prompt_index <$> db w' !! 2 = Some (0 `mod` 3) ∧
      (0 ≤ 0 < 3 → prompt_index <$> db w' !! 2 = Some 0)).
Proof.
  apply (advance_cycles_through_catalog calendar_isoformat
           (with_net delivering blocked_world) 2 (answered_row 0)
           ["P0"; "P1"; "P2"]%string); [reflexivity|reflexivity|discriminate].
Defined.

(** C3, counterexample: from index 4 and a catalog of three prompts, three
    rounds of answering and advancing lead to index 1, not back to 4. *)
Lemma cycle_does_not_return_to_stale_index :
  db shrunk_world !! 5 = Some (answered_row 4)
  ∧ (rounds calendar_isoformat 3 5 ["P0"; "P1"; "P2"]%string
       (fun i => march_1 + Z.of_nat i * 24 * us_per_hour) shrunk_world).1 = Return tt
  ∧ prompt_index <$>
      db (rounds calendar_isoformat 3 5 ["P0"; "P1"; "P2"]%string
            (fun i => march_1 + Z.of_nat i * 24 * us_per_hour) shrunk_world).2 !! 5
    = Some 1
  ∧ prompt_index <$>
      db (rounds calendar_isoformat 3 5 ["P0"; "P1"; "P2"]%string
            (fun i => march_1 + Z.of_nat i * 24 * us_per_hour) shrunk_world).2 !! 5
    ≠ Some (prompt_index (answered_row 4)).
Proof. repeat split; by vm_compute. Qed.

(** C4, witness: user 1 has blocked the bot. *)
Lemma failed_send_commits_nothing_witness :
  maybe_send_next_prompt calendar_isoformat (mkRow 1 (answered_row 0))
    ["P0"; "P1"; "P2"]%string march_2 blocked_world = (Raise TelegramError, blocked_world)
  ∧ ∃ w', start calendar_isoformat (private_message 9) march_2
            (with_net (fun m => negb (chat_id m =? 9)) fresh_world) =
            (Raise TelegramError, w')
      ∧ db w' !! 9 = Some default_columns.
Proof.
  split.
  - apply (failed_send_commits_nothing calendar_isoformat blocked_world 1 1 march_2 "P1");
      reflexivity.
  - destruct (failed_send_commits_nothing calendar_isoformat
                (with_net (fun m => negb (chat_id m =? 9)) fresh_world) 9 9 march_2 "P0"
                eq_refl) as [_ H].
    destruct (H ["P1"; "P2"]%string eq_refl eq_refl) as (w' & Hrun & _ & Hrow & _).
    exists w'. split; [exact Hrun|exact Hrow].
Defined.


(** The scan of [corrupt_world] a day after the prompts, in full. *)
Example corrupt_world_scan :
  reminder_scan_job calendar_fromisoformat moscow_offset march_2 corrupt_world =
    (Return tt,
     {| db := {[ 1 := mark_reminder_sent (unanswered_row "2025-03-01T09:00:00+03:00");
                 2 := unanswered_row "yesterday";
                 3 := mark_reminder_sent (unanswered_row "2025-03-01T09:00:00+03:00") ]};
        outbox := [reminder_message 1; reminder_message 3];
        net := delivering;
        prompts_file := three_prompts |}).
Proof. by vm_compute. Qed.

(** C10, witness: user 2 of [blocked_world] sends [/start] again. *)
Lemma start_again_changes_nothing_witness :
  let r := start calendar_isoformat (private_message 2) march_2 blocked_world in
  db r.2 = db blocked_world
  ∧ (outbox r.2 = outbox blocked_world ∨
     ∃ chat, message (private_message 2) = Some chat ∧
             outbox r.2 = outbox blocked_world ++ [reply_message chat "reply.err.alreadysub"])
  ∧ (∀ (chat : Z) (prompts : list string),
        message (private_message 2) = Some chat →
        (load_prompts blocked_world).1 = Return prompts →
        net blocked_world (reply_message chat "reply.err.alreadysub") = true →
        r = (Return tt,
             with_outbox (fun o => o ++ [reply_message chat "reply.err.alreadysub"])
               blocked_world)).
Proof.
  apply (start_again_changes_nothing calendar_isoformat blocked_world
           (private_message 2) 2 march_2 (answered_row 0)
           "2025-03-01T09:00:00+03:00"); reflexivity.
Defined.

(** C6, counterexample.  With an empty catalog on disk [main] starts the
    application all the same, and it is the daily job that raises, later;
    and the file is read again at each use: after ["P0"] was sent to
    user 7 the file is replaced, and user 8 is sent the new first
    prompt. *)
Lemma catalog_is_not_loaded_at_startup :
  let empty_catalog := with_prompts_file (Parsed (JArray [])) never_prompted_world in
  (main good_env empty_catalog).1 =
    Return {| handlers := [CommandStart; CommandStop; TextMessage];
              jobs := ["daily_9_msk"%string] |}
  ∧ daily_9_msk_job calendar_isoformat march_1 empty_catalog =
      (Raise (ValueError "prompts.json is empty"), empty_catalog)
  ∧ let w1 := (start calendar_isoformat (private_message 7) march_1 fresh_world).2 in
    let w2 := with_prompts_file (Parsed (JArray [JString "Q0"])) w1 in
    outbox w1 = [reply_message 7 "reply.sub"; prompt_message 7 "P0"]
    ∧ outbox (start calendar_isoformat (private_message 8) march_2 w2).2 =
        [reply_message 7 "reply.sub"; prompt_message 7 "P0";
         reply_message 8 "reply.sub"; prompt_message 8 "Q0"].
Proof. repeat split; by vm_compute. Qed.

(** ** Concrete runs for the further properties *)

(** X2, witness: user 7 has no row in the empty table. *)
Lemma updates_need_a_row_witness :
  db_mark_prompt_sent calendar_isoformat 7 2 march_1 fresh_world = (Return tt, fresh_world)
  ∧ db_mark_answered 7 fresh_world = (Return tt, fresh_world)
  ∧ db_mark_reminder_sent 7 fresh_world = (Return tt, fresh_world)
  ∧ db_delete_user 7 fresh_world = (Return tt, fresh_world).
Proof.
  apply (updates_need_a_row calendar_isoformat fresh_world 7 2 march_1). reflexivity.
Defined.

(** X4, witness: marking user 1 answered in [blocked_world]. *)
Lemma store_updates_touch_one_user_witness :
  (∀ k, k ≠ 1 → db (db_mark_answered 1 blocked_world).2 !! k = db blocked_world !! k)
  ∧ outbox (db_mark_answered 1 blocked_world).2 = outbox blocked_world
  ∧ net (db_mark_answered 1 blocked_world).2 = net blocked_world
  ∧ prompts_file (db_mark_answered 1 blocked_world).2 = prompts_file blocked_world.
Proof.
  apply (store_updates_touch_one_user calendar_isoformat blocked_world 1 0 march_1
           (db_mark_answered 1)).
  right. right. left.
Defined.

(** X8, witness: the handlers on messages of user 2. *)
Lemma handlers_are_confined_witness :
  confined_to (private_message 2) 2 blocked_world
    (start calendar_isoformat (private_message 2) march_2 blocked_world).2
  ∧ confined_to (private_message 2) 2 blocked_world
      (stop (private_message 2) blocked_world).2
  ∧ confined_to (private_message 2) 2 blocked_world
      (on_text (private_message 2) blocked_world).2.
Proof.
  apply (handlers_are_confined calendar_isoformat blocked_world (private_message 2) 2
           march_2).
  reflexivity.
Defined.

(** X9, witness: the run of [blocked_world], which stops at its first row. *)
Lemma daily_run_is_a_prefix_witness :
  let r := daily_9_msk_job calendar_isoformat march_2 blocked_world in
  ∃ done rest,
    table_rows (db blocked_world) = done ++ rest
    ∧ outbox r.2 = outbox blocked_world ++
        (daily_message ["P0"; "P1"; "P2"]%string <$> done)
    ∧ (∀ u, u ∈ done →
         db r.2 !! user_id u =
           Some (daily_row calendar_isoformat ["P0"; "P1"; "P2"]%string march_2 (columns u)))
    ∧ (∀ u, u ∈ rest → db r.2 !! user_id u = Some (columns u))
    ∧ dom (db r.2) = dom (db blocked_world)
    ∧ (r.1 = Return tt ↔ rest = []).
Proof.
  apply (daily_run_is_a_prefix calendar_isoformat blocked_world march_2
           ["P0"; "P1"; "P2"]%string).
  reflexivity.
Defined.

(** X10, witness: the same table once the transport delivers. *)
Lemma daily_run_delivering_witness :
  daily_9_msk_job calendar_isoformat march_2 unblocked_world =
    (Return tt,
     {| db := daily_row calendar_isoformat ["P0"; "P1"; "P2"]%string march_2
                <$> db unblocked_world;
        outbox := outbox unblocked_world ++
          (daily_message ["P0"; "P1"; "P2"]%string <$> table_rows (db unblocked_world));
        net := net unblocked_world;
        prompts_file := prompts_file unblocked_world |}).
Proof.
  apply (daily_run_delivering calendar_isoformat unblocked_world march_2
           ["P0"; "P1"; "P2"]%string); [reflexivity|].
  intros m. reflexivity.
Defined.

(** The run of [unblocked_world], in full. *)
Example unblocked_world_daily_run :
  daily_9_msk_job calendar_isoformat march_2 unblocked_world =
    (Return tt,
     {| db := {[ 1 := {| prompt_index := 1;
                         last_prompt_ts := Some "2025-03-02T09:00:00+03:00"%string;
                         answered := 0; reminder_sent := 0 |};
                 2 := {| prompt_index := 1;
                         last_prompt_ts := Some "2025-03-02T09:00:00+03:00"%string;
                         answered := 0; reminder_sent := 0 |} ]};
        outbox := [prompt_message 1 "P1"; prompt_message 2 "P1"];
        net := delivering;
        prompts_file := three_prompts |}).
Proof. by vm_compute. Qed.

(** X12, witness: the scan of [corrupt_world] a day after the prompts. *)
Lemma scan_run_delivering_witness :
  let w' :=
    {| db := scan_row calendar_fromisoformat moscow_offset march_2 <$> db corrupt_world;
       outbox := outbox corrupt_world ++
         (reminder_message <$>
            (user_id <$>
               filter (fun r => reminder_due calendar_fromisoformat moscow_offset march_2
                                  (columns r) = true)
                 (table_rows (db corrupt_world))));
       net := net corrupt_world;
       prompts_file := prompts_file corrupt_world |} in
  reminder_scan_job calendar_fromisoformat moscow_offset march_2 corrupt_world =
    (Return tt, w')
  ∧ ∀ transport,
      reminder_scan_job calendar_fromisoformat moscow_offset march_2
        (with_net transport w') = (Return tt, with_net transport w').
Proof.
  apply (scan_run_delivering calendar_fromisoformat moscow_offset corrupt_world march_2).
  intros m. reflexivity.
Defined.

(** X14, witness: user 7 subscribes, answers, is advanced by a daily run
    and, two days later, is reminded. *)
Lemma reachable_tables_are_consistent_witness :
  let c := {| prompt_index := 1;
              last_prompt_ts := Some "1970-01-01T03:00:00+03:00"%string;
              answered := 0; reminder_sent := 1 |} in
  row_consistent coarse_isoformat c
  ∧ ∀ s, last_prompt_ts c = Some s →
      is_Some (coarse_fromisoformat s)
      ∧ ((∀ t, is_Some (parse_last_dt coarse_fromisoformat moscow_offset
                         (coarse_isoformat t))) →
         is_Some (parse_last_dt coarse_fromisoformat moscow_offset s)).
Proof.
  apply (reachable_tables_are_consistent coarse_isoformat coarse_fromisoformat
           moscow_offset
           [EStart (private_message 7) march_1; EText (private_message 7);
            EDaily march_2; EScan march_3]
           fresh_world) with 7; [reflexivity| |by vm_compute].
  intros t. unfold coarse_isoformat.
  destruct (bool_decide (t = march_1)); vm_compute; eauto.
Defined.

(** X15, witness: the scenario of a new user and a catalog of three. *)
Lemma subscribe_answer_advance_witness :
  let w1 := (start calendar_isoformat (private_message 7) march_1 fresh_world).2 in
  let w2 := (on_text (private_message 7) w1).2 in
  let w3 := (daily_9_msk_job calendar_isoformat march_2 w2).2 in
  ∃ p0 p1,
    ["P0"; "P1"; "P2"]%string !! 0%nat = Some p0
    ∧ ["P0"; "P1"; "P2"]%string !! Z.to_nat (1 `mod` 3) = Some p1
    ∧ db w3 !! 7 =
        Some {| prompt_index := 1 `mod` 3;
                last_prompt_ts := Some (calendar_isoformat march_2);
                answered := 0; reminder_sent := 0 |}
    ∧ sent_to 7 w3 =
        sent_to 7 fresh_world ++
          [reply_message 7 "reply.sub"; prompt_message 7 p0;
           reply_message 7 "reply.complete.received"; prompt_message 7 p1].
Proof.
  apply (subscribe_answer_advance calendar_isoformat fresh_world 7 march_1 march_2
           ["P0"; "P1"; "P2"]%string); [reflexivity|reflexivity|].
  intros m. reflexivity.
Defined.

(** X16, witness: a prompt recorded for user 7 on March 1, scanned a day
    later. *)
Lemma reminder_follows_the_send_time_witness :
  let w1 := (db_mark_prompt_sent calendar_isoformat 7 0 march_1 never_prompted_world).2 in
  let c1 := {| prompt_index := 0; last_prompt_ts := Some (calendar_isoformat march_1);
               answered := 0; reminder_sent := 0 |} in
  db w1 !! 7 = Some c1
  ∧ (march_2 < march_1 + timedelta_hours 24 →
       reminder_scan_user calendar_fromisoformat moscow_offset march_2 (mkRow 7 c1) w1 =
         (Return tt, w1))
  ∧ (march_1 + timedelta_hours 24 ≤ march_2 →
       net never_prompted_world (reminder_message 7) = true →
       let r := reminder_scan_user calendar_fromisoformat moscow_offset march_2
                  (mkRow 7 c1) w1 in
       r.1 = Return tt
       ∧ db r.2 !! 7 = Some (mark_reminder_sent c1)
       ∧ outbox r.2 = outbox never_prompted_world ++ [reminder_message 7])
  ∧ ((∀ m, net never_prompted_world m = true) →
       (reminder_scan_job calendar_fromisoformat moscow_offset march_2 w1).1 = Return tt
       ∧ db (reminder_scan_job calendar_fromisoformat moscow_offset march_2 w1).2 !! 7 =
           Some (if bool_decide (march_1 + timedelta_hours 24 ≤ march_2)
                 then mark_reminder_sent c1 else c1)).
Proof.
  apply (reminder_follows_the_send_time calendar_isoformat calendar_fromisoformat
           moscow_offset never_prompted_world 7 0 march_1 march_2 default_columns);
    reflexivity.
Defined.

(** X18, witness: of the two files with stem [ru_RU] the later one is
    read. *)
Lemma L_after_load_witness :
  Locales.L Locales.verbatim (Locales.load_locales (Some locale_directory) ∅).2
    "reply.sub" [] = Return "new"%string
  ∧ Locales.L Locales.verbatim (Locales.load_locales (Some locale_directory) ∅).2
      "reply.unsub" [] = Return "ru_RU:reply.unsub"%string.
Proof.
  split.
  - apply (L_after_load Locales.verbatim locale_directory "reply.sub" []).
    repeat econstructor.
  - apply (L_after_load Locales.verbatim locale_directory "reply.unsub" []).
    repeat econstructor.
Defined.

(** ** Concrete runs for the claims settled against the code *)


(** C8, counterexample.  User 7 answers the prompt while the transport
    refuses every message: the handler raises, no reply has been sent,
    and [answered = 1] is already written. *)
Lemma acknowledge_can_fail_without_reply :
  let r := on_text (private_message 7) silent_world in
  r.1 = Raise TelegramError
  ∧ r.1 ≠ Return tt
  ∧ outbox r.2 = outbox silent_world
  ∧ outbox silent_world = []
  ∧ answered <$> db silent_world !! 7 = Some 0
  ∧ answered <$> db r.2 !! 7 = Some 1.
Proof. repeat split; by vm_compute. Qed.
